(** * rasa_sdk.endpoint: dispatch, rejection, forwarding and failure handling

    A shallow embedding of [create_app] from [rasa_sdk/endpoint.py]: the
    [/webhook], [/actions] and [/health] routes and the application level
    [exception_handler].

    The routes are effectful: they decode the request with [zlib] and [json],
    call the version gate, drive the [ActionExecutor] and, for unknown actions,
    post the call to a second action server with [requests].  These
    collaborators are interfaces here (type classes); a route is a computation
    in a small monad that threads the executor, may raise a Python exception
    and writes down, in order, every collaborator call it makes together with
    the exception that call raised, if any.  Logging is left out: it never
    changes a response or the control flow.

    The start of the server ([configure_cors], [create_ssl_context],
    [create_app] and [run]) is embedded as well; there the logged lines are
    part of what [run] is seen to do. *)

From Stdlib Require Import ZArith String Ascii List Bool Lia DecimalString Sorted.
From Stdlib.Strings Require Byte.
Import ListNotations.
Local Open Scope string_scope.
Local Open Scope Z_scope.
Set Warnings "-register-all".

(** ** Python values that cross the endpoint *)

Definition bytes := list Byte.byte.

(** A decoded JSON document, which is also what [response.json] serialises.
    Python's [None] is [JNull]; a [dict] keeps its insertion order and its
    keys are distinct.  Numbers are kept as integers: no route computes with
    them. *)
Inductive Json : Type :=
| JNull
| JBool (b : bool)
| JNumber (n : Z)
| JString (s : string)
| JArray (items : list Json)
| JObject (fields : list (string * Json)).

(** The exception classes the endpoint tells apart.  The two SDK exceptions
    of [rasa_sdk.interfaces] carry [action_name] and [message];
    [RequestException] stands for [requests.RequestException] and all its
    subclasses ([ConnectionError], [Timeout], [HTTPError], ...);
    [IncompatibleVersionError] is the failure of the version gate;
    [OtherException] is any other [Exception], with its class name and its
    [str]. *)
Inductive Exn : Type :=
| ActionExecutionRejection (action_name message : string)
| ActionNotFoundException (action_name message : string)
| RequestException (description : string)
| IncompatibleVersionError (description : string)
| OtherException (class_name description : string).

(** [str(exception)]; the two SDK exceptions print their [message]. *)
Definition str (exception : Exn) : string :=
  match exception with
  | ActionExecutionRejection _ message => message
  | ActionNotFoundException _ message => message
  | RequestException description => description
  | IncompatibleVersionError description => description
  | OtherException _ description => description
  end.

Inductive Outcome (A : Type) : Type :=
| Returned (a : A)
| Raised (e : Exn).
Arguments Returned {A} a.
Arguments Raised {A} e.

Definition failure_of {A : Type} (o : Outcome A) : option Exn :=
  match o with
  | Returned _ => None
  | Raised e => Some e
  end.

(** ** Requests and responses *)

Record Request : Type := MkRequest {
  headers : list (string * string);
  body : bytes
}.

(** What [response.json(body, status=...)] builds. *)
Record HTTPResponse : Type := MkResponse {
  status : Z;
  json_body : Json
}.

Definition response_json (body : Json) (status : Z) : HTTPResponse :=
  MkResponse status body.

(** A [requests.Response]: its status code and what [reply.json()] gives. *)
Record Reply : Type := MkReply {
  status_code : Z;
  reply_json : Outcome Json
}.

(** Header names are matched without regard to case. *)
Definition lower_ascii (c : ascii) : ascii :=
  let n := N_of_ascii c in
  if (65 <=? n)%N && (n <=? 90)%N then ascii_of_N (n + 32) else c.

Fixpoint lower (s : string) : string :=
  match s with
  | EmptyString => EmptyString
  | String c rest => String (lower_ascii c) (lower rest)
  end.

Fixpoint headers_get (hs : list (string * string)) (name : string) : option string :=
  match hs with
  | [] => None
  | (k, v) :: rest =>
      if String.eqb (lower k) (lower name) then Some v else headers_get rest name
  end.

(** [request.headers.get("Content-Encoding") == "deflate"] *)
Definition content_encoding_is_deflate (request : Request) : bool :=
  match headers_get (headers request) "Content-Encoding" with
  | Some v => String.eqb v "deflate"
  | None => false
  end.

Fixpoint fields_get (fields : list (string * Json)) (key : string) : Json :=
  match fields with
  | [] => JNull
  | (k, v) :: rest => if String.eqb k key then v else fields_get rest key
  end.

(** [action_call.get(key)]: only a [dict] has [get]. *)
Definition dict_get (value : Json) (key : string) : Outcome Json :=
  match value with
  | JObject fields => Returned (fields_get fields key)
  | _ => Raised (OtherException "AttributeError" "object has no attribute 'get'")
  end.

(** [reply.raise_for_status()] of [requests]: client and server error codes
    raise [HTTPError], a [RequestException]. *)
Definition is_error_status (code : Z) : bool :=
  (400 <=? code) && (code <? 600).

Definition raise_for_status (reply : Reply) : Outcome unit :=
  if is_error_status (status_code reply)
  then Raised (RequestException "HTTPError")
  else Returned tt.

(** ** Collaborators *)

(** Third-party libraries: [zlib.decompress], [json.loads], Sanic's
    [request.json] and [requests.post(url, json=...)]. *)
Class Libraries : Type := {
  zlib_decompress : bytes -> Outcome bytes;
  json_loads : bytes -> Outcome Json;
  request_json : Request -> Outcome Json;
  requests_post : string -> Json -> Outcome Reply
}.

(** [rasa_sdk.utils.check_version_compatibility], applied to
    [action_call.get("version")]. *)
Class Utils : Type := {
  check_version_compatibility : Json -> Outcome unit
}.

(** [rasa_sdk.executor.ActionExecutor], with state [E]: [reload()],
    [run(action_call)] and [actions.keys()].  [run] reads the call it is
    given; what it does to the executor shows in the state it returns. *)
Class ActionExecutor (E : Type) : Type := {
  reload : E -> Outcome unit * E;
  run : Json -> E -> Outcome Json * E;
  actions_keys : E -> list string
}.

(** ** Traces *)

Inductive Call : Type :=
| zlib_decompress_call (data : bytes)
| json_loads_call (data : bytes)
| request_json_call
| dict_get_call (key : string)
| check_version_compatibility_call (version : Json)
| executor_reload_call
| executor_run_call (action_call : Json)
| requests_post_call (url : string) (payload : Json)
| raise_for_status_call (code : Z)
| reply_json_call
| executor_actions_keys_call.

(** One step of a request: the call made and the exception it raised. *)
Definition Entry : Type := (Call * option Exn)%type.

(** ** The monad of route handlers *)

Record Run (E A : Type) : Type := MkRun {
  outcome : Outcome A;
  executor_after : E;
  trace : list Entry
}.
Arguments MkRun {E A} outcome executor_after trace.
Arguments outcome {E A} r.
Arguments executor_after {E A} r.
Arguments trace {E A} r.

Definition M (E A : Type) : Type := E -> Run E A.

Definition ret {E A : Type} (a : A) : M E A :=
  fun ex => MkRun (Returned a) ex [].

Definition raise {E A : Type} (e : Exn) : M E A :=
  fun ex => MkRun (Raised e) ex [].

Definition bind {E A B : Type} (m : M E A) (k : A -> M E B) : M E B :=
  fun ex =>
    match m ex with
    | MkRun (Returned a) ex1 t1 =>
        match k a ex1 with
        | MkRun o ex2 t2 => MkRun o ex2 (t1 ++ t2)
        end
    | MkRun (Raised e) ex1 t1 => MkRun (Raised e) ex1 t1
    end.

(** [try: m  except Exception as e: handler e]; a handler re-raises what its
    [except] clauses do not match. *)
Definition try_except {E A : Type} (m : M E A) (handler : Exn -> M E A) : M E A :=
  fun ex =>
    match m ex with
    | MkRun (Returned a) ex1 t1 => MkRun (Returned a) ex1 t1
    | MkRun (Raised e) ex1 t1 =>
        match handler e ex1 with
        | MkRun o ex2 t2 => MkRun o ex2 (t1 ++ t2)
        end
    end.

(** A call that does not touch the executor. *)
Definition lib {E A : Type} (c : Call) (o : Outcome A) : M E A :=
  fun ex => MkRun o ex [(c, failure_of o)].

(** A call of an executor method. *)
Definition exec {E A : Type} (c : Call) (f : E -> Outcome A * E) : M E A :=
  fun ex => let (o, ex1) := f ex in MkRun o ex1 [(c, failure_of o)].

Notation "x <- m ;; k" := (bind m (fun x => k))
  (at level 61, m at next level, right associativity).

(** ** create_app *)

(** The arguments of [create_app] the routes close over. *)
Record App : Type := MkApp {
  auto_reload : bool;
  enable_forwarding : bool;
  forward_ip : string;
  forward_port : Z
}.

(** [f"http://{forward_ip}:{forward_port}/webhook"] *)
Definition forward_url (app : App) : string :=
  "http://" ++ forward_ip app ++ ":"
    ++ NilZero.string_of_int (Z.to_int (forward_port app)) ++ "/webhook".

Definition error_body (error action_name : string) : Json :=
  JObject [("error", JString error); ("action_name", JString action_name)].

Section Routes.

Context {E : Type} `{ActionExecutor E} `{Libraries} `{Utils}.
Variable app : App.

Definition health (_ : Request) : M E HTTPResponse :=
  ret (response_json (JObject [("status", JString "ok")]) 200).

(** Lines 103-109: the decoded action call. *)
Definition decode (request : Request) : M E Json :=
  if content_encoding_is_deflate request then
    decompressed_data <-
      lib (zlib_decompress_call (body request)) (zlib_decompress (body request)) ;;
    lib (json_loads_call decompressed_data) (json_loads decompressed_data)
  else
    lib request_json_call (request_json request).

(** Lines 128-139: one relay of the call to the second server. *)
Definition forward (action_call : Json) (action_name : string)
  : M E (Json + HTTPResponse) :=
  try_except
    (reply <-
       lib (requests_post_call (forward_url app) action_call)
           (requests_post (forward_url app) action_call) ;;
     _ <- lib (raise_for_status_call (status_code reply)) (raise_for_status reply) ;;
     result_from_other_server <- lib reply_json_call (reply_json reply) ;;
     ret (inl result_from_other_server))
    (fun ex =>
       match ex with
       | RequestException _ =>
           ret (inr (response_json
                       (error_body "Forwarding request failed" action_name) 504))
       | _ => raise ex
       end).

(** Lines 119-143: [inl result] falls through to line 145, [inr response]
    is a [return] inside an [except] clause. *)
Definition dispatch (action_call : Json) : M E (Json + HTTPResponse) :=
  try_except
    (result <- exec (executor_run_call action_call) (run action_call) ;;
     ret (inl result))
    (fun e =>
       match e with
       | ActionExecutionRejection action_name message =>
           ret (inr (response_json (error_body message action_name) 400))
       | ActionNotFoundException action_name message =>
           if enable_forwarding app then forward action_call action_name
           else ret (inr (response_json (error_body message action_name) 404))
       | _ => raise e
       end).

Definition webhook (request : Request) : M E HTTPResponse :=
  action_call <- decode request ;;
  match action_call with
  | JNull =>
      ret (response_json (JObject [("error", JString "Invalid body request")]) 400)
  | _ =>
      version <- lib (dict_get_call "version") (dict_get action_call "version") ;;
      _ <- lib (check_version_compatibility_call version)
               (check_version_compatibility version) ;;
      _ <- (if auto_reload app then exec executor_reload_call reload else ret tt) ;;
      handled <- dispatch action_call ;;
      match handled with
      | inl result => ret (response_json result 200)
      | inr response => ret response
      end
  end.

Definition actions (_ : Request) : M E HTTPResponse :=
  _ <- (if auto_reload app then exec executor_reload_call reload else ret tt) ;;
  keys <- exec executor_actions_keys_call (fun ex => (Returned (actions_keys ex), ex)) ;;
  ret (response_json (JArray (map (fun k => JObject [("name", JString k)]) keys)) 200).

Definition exception_handler (request : Request) (exception : Exn)
  : M E HTTPResponse :=
  request_body <- lib request_json_call (request_json request) ;;
  ret (response_json
         (JObject [("error", JString (str exception)); ("request_body", request_body)])
         500).

(** What the application does with a route: an exception that leaves the
    route goes to the handler registered with [@app.exception(Exception)]. *)
Definition serve (route : Request -> M E HTTPResponse) (request : Request)
  : M E HTTPResponse :=
  try_except (route request) (exception_handler request).

End Routes.

(** ** The version gate *)

Module Gate.

(** Modelled from the spec: the major component of a version [x.y.z] (the
    text before the first dot), on which the gate of [rasa_sdk.utils], which
    is outside this source file, decides. *)
Fixpoint major (version : string) : string :=
  match version with
  | EmptyString => EmptyString
  | String c rest =>
      if Ascii.eqb c "."%char then EmptyString else String c (major rest)
  end.

(** Modelled from the spec: [rasa_sdk.utils.check_version_compatibility] is
    outside this source file.  The Compatibility Gate compares the caller's
    declared version with the server's own: equal major components are
    compatible, an absent version is accepted, a different major component
    fails the call with [IncompatibleVersionError].  The spec types the field
    as a string; any other JSON value is outside its contract and is
    surfaced as an unclassified failure. *)
Definition check_version_compatibility (sdk_version : string) (version : Json)
  : Outcome unit :=
  match version with
  | JNull => Returned tt
  | JString v =>
      if String.eqb (major v) (major sdk_version) then Returned tt
      else Raised (IncompatibleVersionError
                     ("caller version " ++ v ++ " is incompatible with " ++ sdk_version))
  | _ => Raised (OtherException "TypeError" "version is not a string")
  end.

End Gate.

Definition gate_utils (sdk_version : string) : Utils :=
  {| check_version_compatibility := Gate.check_version_compatibility sdk_version |}.

(** ** The registry and the dispatch engine *)

Module Executor.

(** Modelled from the spec: what invoking a registered handler gives; the
    action classes are outside this source file.  A handler produces events
    and response messages, refuses to run, or fails in some other way. *)
Inductive HandlerOutcome : Type :=
| Produced (events responses : list Json)
| Refused (message : string)
| Crashed (e : Exn).

Definition Handler : Type := Json -> HandlerOutcome.

(** Modelled from the spec: the Action Registry of [ActionExecutor], which is
    outside this source file.  Names are unique; the order is the order of
    first registration. *)
Definition Registry : Type := list (string * Handler).

(** Modelled from the spec: registry [register], which inserts or overwrites
    the entry of a name. *)
Fixpoint register (name : string) (handler : Handler) (registry : Registry)
  : Registry :=
  match registry with
  | [] => [(name, handler)]
  | (k, h) :: rest =>
      if String.eqb k name then (k, handler) :: rest
      else (k, h) :: register name handler rest
  end.

(** Modelled from the spec: registry [lookup], a pure read. *)
Fixpoint lookup (name : string) (registry : Registry) : option Handler :=
  match registry with
  | [] => None
  | (k, h) :: rest => if String.eqb k name then Some h else lookup name rest
  end.

(** Modelled from the spec: registry [names], in insertion order. *)
Definition names (registry : Registry) : list string := map fst registry.

(** Modelled from the spec: the state of [ActionExecutor], which is outside
    this source file: the active registry, what the loader would produce now,
    and two counters that only observe (registry lookups made, handlers
    invoked). *)
Record State : Type := MkState {
  registry : Registry;
  loader : Outcome (list (string * Handler));
  lookups : nat;
  invoked : list string
}.

(** Modelled from the spec: the name of an action call, carried by its
    [next_action] field; an absent name reads as the empty one. *)
Definition call_name (action_call : Json) : string :=
  match action_call with
  | JObject fields =>
      match fields_get fields "next_action" with
      | JString name => name
      | _ => ""
      end
  | _ => ""
  end.

(** Modelled from the spec: the message of a not-found outcome; the spec
    leaves its text open. *)
Definition not_found_message (name : string) : string :=
  "No registered action found for name '" ++ name ++ "'.".

(** Modelled from the spec: [ActionExecutor.reload] is outside this source
    file.  Registry [reload] re-runs the loader and swaps the active set; if
    the loader fails the previous registry stays and the failure is
    surfaced. *)
Definition reload (st : State) : Outcome unit * State :=
  match loader st with
  | Returned entries =>
      (Returned tt,
       MkState (fold_left (fun r e => register (fst e) (snd e) r) entries [])
               (loader st) (lookups st) (invoked st))
  | Raised e => (Raised e, st)
  end.

(** Modelled from the spec: [ActionExecutor.run] is outside this source
    file.  The Dispatch Engine looks the name up (absent: not found, no
    handler runs), invokes the handler, and reports a refusal as a rejection,
    any other failure as it is, and success as [{events, responses}].  The
    engine assumes a name and does not validate it.  The three outcome kinds
    reach the endpoint as a return value and the two SDK exceptions. *)
Definition run (action_call : Json) (st : State) : Outcome Json * State :=
  let name := call_name action_call in
  match lookup name (registry st) with
  | None =>
      (Raised (ActionNotFoundException name (not_found_message name)),
       MkState (registry st) (loader st) (S (lookups st)) (invoked st))
  | Some handler =>
      let st1 := MkState (registry st) (loader st) (S (lookups st))
                         (invoked st ++ [name]) in
      match handler action_call with
      | Produced events responses =>
          (Returned (JObject [("events", JArray events);
                              ("responses", JArray responses)]), st1)
      | Refused message => (Raised (ActionExecutionRejection name message), st1)
      | Crashed e => (Raised e, st1)
      end
  end.

End Executor.

Definition registry_executor : ActionExecutor Executor.State :=
  {| reload := Executor.reload;
     run := Executor.run;
     actions_keys := fun st => Executor.names (Executor.registry st) |}.

(** ** A sample deployment

    A server at version 3.4.2 with three registered actions, a handful of
    request bodies with the documents [json] and [zlib] decode them to, and
    three second servers.  The library tables answer as the real libraries do
    on these inputs. *)

Module Scenario.

Definition hex_digit (c : ascii) : N :=
  let n := N_of_ascii c in
  if (n <? 58)%N then (n - 48)%N else (n - 87)%N.

Fixpoint bytes_of_hex (s : string) : bytes :=
  match s with
  | String a (String b rest) =>
      match Byte.of_N (16 * hex_digit a + hex_digit b) with
      | Some x => x :: bytes_of_hex rest
      | None => []
      end
  | _ => []
  end.

Fixpoint bytes_eqb (a b : bytes) : bool :=
  match a, b with
  | [], [] => true
  | x :: a', y :: b' => Byte.eqb x y && bytes_eqb a' b'
  | _, _ => false
  end.

Fixpoint assoc {A B : Type} (eqb : A -> A -> bool) (key : A) (table : list (A * B))
  : option B :=
  match table with
  | [] => None
  | (k, v) :: rest => if eqb k key then Some v else assoc eqb key rest
  end.

Definition sdk_version : string := "3.4.2".

Definition call_of (name : string) : Json :=
  JObject [("next_action", JString name)].

Definition versioned_call (name version : string) : Json :=
  JObject [("next_action", JString name); ("version", JString version)].

(** The body texts, as hexadecimal:
    - greet:     {next_action: action_greet, version: 3.1.0}
    - old:       {next_action: action_greet, version: 2.8.0}
    - book:      {next_action: action_book}
    - missing:   {next_action: action_missing}
    - buggy:     {next_action: action_buggy}
    - nameless:  the empty object
    - malformed: a lone opening brace *)
Definition greet_text : bytes := bytes_of_hex
  "7b226e6578745f616374696f6e223a22616374696f6e5f6772656574222c2276657273696f6e223a22332e312e30227d".
Definition old_text : bytes := bytes_of_hex
  "7b226e6578745f616374696f6e223a22616374696f6e5f6772656574222c2276657273696f6e223a22322e382e30227d".
Definition book_text : bytes := bytes_of_hex
  "7b226e6578745f616374696f6e223a22616374696f6e5f626f6f6b227d".
Definition missing_text : bytes := bytes_of_hex
  "7b226e6578745f616374696f6e223a22616374696f6e5f6d697373696e67227d".
Definition buggy_text : bytes := bytes_of_hex
  "7b226e6578745f616374696f6e223a22616374696f6e5f6275676779227d".
Definition nameless_text : bytes := bytes_of_hex "7b7d".
Definition malformed_text : bytes := bytes_of_hex "7b".

(** [zlib.compress] of the missing and of the buggy call. *)
Definition missing_deflated : bytes := bytes_of_hex
  "789cab56ca4bad28894f4c2ec9cccf53b2528230e273338b8b33f3d2956a01c7940c2e".
Definition buggy_deflated : bytes := bytes_of_hex
  "789cab56ca4bad28894f4c2ec9cccf53b2528230e2934ad3d32b956a01aef20b52".

Definition documents : list (bytes * Json) :=
  [ (greet_text, versioned_call "action_greet" "3.1.0");
    (old_text, versioned_call "action_greet" "2.8.0");
    (book_text, call_of "action_book");
    (missing_text, call_of "action_missing");
    (buggy_text, call_of "action_buggy");
    (nameless_text, JObject []) ].

Definition streams : list (bytes * bytes) :=
  [ (missing_deflated, missing_text); (buggy_deflated, buggy_text) ].

Definition remote_result : Json :=
  JObject [("events", JArray []);
           ("responses", JArray [JObject [("text", JString "from the second server")]])].

Definition remote_not_found : Json :=
  error_body "No registered action found for name 'action_missing'." "action_missing".

(** The second servers: one answers 200, one 201, one 404; nothing else
    listens. *)
Definition targets : list (string * Reply) :=
  [ ("http://10.0.0.2:5056/webhook", MkReply 200 (Returned remote_result));
    ("http://10.0.0.3:5056/webhook", MkReply 201 (Returned remote_result));
    ("http://10.0.0.4:5056/webhook", MkReply 404 (Returned remote_not_found)) ].

Definition libraries : Libraries :=
  {| zlib_decompress := fun data =>
       match assoc bytes_eqb data streams with
       | Some plain => Returned plain
       | None => Raised (OtherException "zlib.error" "incorrect header check")
       end;
     json_loads := fun data =>
       match assoc bytes_eqb data documents with
       | Some document => Returned document
       | None => Raised (OtherException "JSONDecodeError" "Expecting value")
       end;
     request_json := fun request =>
       match body request with
       | [] => Returned JNull
       | data =>
           match assoc bytes_eqb data documents with
           | Some document => Returned document
           | None => Raised (OtherException "BadRequest"
                               "Failed when parsing body as json")
           end
       end;
     requests_post := fun url _ =>
       match assoc String.eqb url targets with
       | Some reply => Returned reply
       | None => Raised (RequestException "ConnectionError")
       end |}.

Definition action_greet : Executor.Handler :=
  fun _ => Executor.Produced [] [JObject [("text", JString "Hello!")]].
Definition action_book : Executor.Handler :=
  fun _ => Executor.Refused "No date was given.".
Definition action_buggy : Executor.Handler :=
  fun _ => Executor.Crashed (OtherException "ZeroDivisionError" "division by zero").

Definition package : list (string * Executor.Handler) :=
  [ ("action_greet", action_greet);
    ("action_book", action_book);
    ("action_buggy", action_buggy) ].

(** The executor after [register_package]. *)
Definition executor : Executor.State :=
  Executor.MkState package (Returned package) 0 [].

Definition plain (data : bytes) : Request := MkRequest [] data.
Definition deflate (data : bytes) : Request :=
  MkRequest [("content-encoding", "deflate")] data.

(** [create_app] with its defaults, and variants. *)
Definition default_app : App := MkApp false false "0.0.0.0" 5056.
Definition reloading_app : App := MkApp true false "0.0.0.0" 5056.
Definition forwarding_app (ip : string) : App := MkApp false true ip 5056.

Definition post (app : App) (request : Request) : Run Executor.State HTTPResponse :=
  @webhook _ registry_executor libraries (gate_utils sdk_version) app request executor.

Definition served (app : App) (request : Request) : Run Executor.State HTTPResponse :=
  @serve _ libraries
    (@webhook _ registry_executor libraries (gate_utils sdk_version) app)
    request executor.

End Scenario.

(** ** The shape of a webhook run

    Everything up to line 117 (decoding, the body check, the version gate and
    the optional reload) is the prologue; it yields the action call to
    dispatch, or [None] for an invalid body. *)

Definition invalid_body_response : HTTPResponse :=
  response_json (JObject [("error", JString "Invalid body request")]) 400.

Definition rejection_response (action_name message : string) : HTTPResponse :=
  response_json (error_body message action_name) 400.

Definition not_found_response (action_name message : string) : HTTPResponse :=
  response_json (error_body message action_name) 404.

Definition forwarding_failed_response (action_name : string) : HTTPResponse :=
  response_json (error_body "Forwarding request failed" action_name) 504.

Definition server_error_response (exception : Exn) (request_body : Json)
  : HTTPResponse :=
  response_json
    (JObject [("error", JString (str exception)); ("request_body", request_body)]) 500.

(** Calls made before dispatch. *)
Definition pre_dispatch (c : Call) : bool :=
  match c with
  | zlib_decompress_call _ | json_loads_call _ | request_json_call
  | dict_get_call _ | check_version_compatibility_call _ | executor_reload_call => true
  | _ => false
  end.

(** Calls that decode the request body. *)
Definition is_decode_call (c : Call) : bool :=
  match c with
  | zlib_decompress_call _ | json_loads_call _ | request_json_call => true
  | _ => false
  end.

(** Calls of an executor method. *)
Definition executor_call (c : Call) : bool :=
  match c with
  | executor_reload_call | executor_run_call _ | executor_actions_keys_call => true
  | _ => false
  end.

(** The steps of one relay to the second server. *)
Definition forwarding_step (c : Call) : bool :=
  match c with
  | requests_post_call _ _ | raise_for_status_call _ | reply_json_call => true
  | _ => false
  end.

Definition is_request_exception (e : Exn) : bool :=
  match e with
  | RequestException _ => true
  | _ => false
  end.

(** The two exceptions that carry a dispatch outcome. *)
Definition is_dispatch_outcome (e : Exn) : bool :=
  match e with
  | ActionExecutionRejection _ _ | ActionNotFoundException _ _ => true
  | _ => false
  end.


Section Shape.

Context {E : Type} `{ActionExecutor E} `{Libraries} `{Utils}.
Variable app : App.

Definition prologue (request : Request) : M E (option Json) :=
  action_call <- decode request ;;
  match action_call with
  | JNull => ret None
  | _ =>
      version <- lib (dict_get_call "version") (dict_get action_call "version") ;;
      _ <- lib (check_version_compatibility_call version)
               (check_version_compatibility version) ;;
      _ <- (if auto_reload app then exec executor_reload_call reload else ret tt) ;;
      ret (Some action_call)
  end.

(** Line 145, or the early [return] of an [except] clause. *)
Definition conclude (t0 : list Entry) (r : Run E (Json + HTTPResponse))
  : Run E HTTPResponse :=
  MkRun
    match outcome r with
    | Returned (inl result) => Returned (response_json result 200)
    | Returned (inr response) => Returned response
    | Raised e => Raised e
    end
    (executor_after r) (t0 ++ trace r).

Definition after_prologue (p : Run E (option Json)) : Run E HTTPResponse :=
  match p with
  | MkRun (Returned (Some action_call)) ex0 t0 =>
      conclude t0 (dispatch app action_call ex0)
  | MkRun (Returned None) ex0 t0 => MkRun (Returned invalid_body_response) ex0 t0
  | MkRun (Raised e) ex0 t0 => MkRun (Raised e) ex0 t0
  end.

End Shape.

(** The place of a call in the course of a webhook request. *)
Definition phase (c : Call) : Z :=
  match c with
  | zlib_decompress_call _ => 0
  | request_json_call => 0
  | json_loads_call _ => 1
  | dict_get_call _ => 2
  | check_version_compatibility_call _ => 3
  | executor_reload_call => 4
  | executor_run_call _ => 5
  | requests_post_call _ _ => 6
  | raise_for_status_call _ => 7
  | reply_json_call => 8
  | executor_actions_keys_call => 9
  end.

Definition is_run_call (c : Call) : bool :=
  match c with
  | executor_run_call _ => true
  | _ => false
  end.

Definition is_post_call (c : Call) : bool :=
  match c with
  | requests_post_call _ _ => true
  | _ => false
  end.

(** How many calls of a kind a trace holds. *)
Definition calls (kind : Call -> bool) (t : list Entry) : nat :=
  length (filter (fun en => kind (fst en)) t).

(** ** Starting the server *)

(** The [cors_origins] argument: a text, a list of texts or [None]. *)
Inductive Origins : Type :=
| no_origins
| origin_text (origin : string)
| origin_list (origins : list string).

(** Python's truth value of a [cors_origins] argument. *)
Definition origins_truth (cors_origins : Origins) : bool :=
  match cors_origins with
  | no_origins => false
  | origin_text origin => negb (String.eqb origin "")
  | origin_list [] => false
  | origin_list (_ :: _) => true
  end.

(** The arguments [CORS] is called with: [resources] maps a path pattern to
    its options. *)
Record Cors : Type := MkCors {
  resources : list (string * list (string * Origins));
  automatic_options : bool
}.

(** Lines 26-33; [cors_origins or ""] keeps a true argument. *)
Definition configure_cors (cors_origins : Origins) : Cors :=
  MkCors [("/*", [("origins",
                   if origins_truth cors_origins then cors_origins
                   else origin_text "")])]
         true.

(** What a default [CLIENT_AUTH] context has had loaded into it. *)
Record SSLContext : Type := MkSSLContext {
  certfile : string;
  keyfile : option string;
  password : option string
}.

(** [ssl_context.load_cert_chain(certfile, keyfile=..., password=...)] of the
    [ssl] library, which fails on unreadable or mismatched files. *)
Class Ssl : Type := {
  load_cert_chain : string -> option string -> option string -> Outcome unit
}.

(** Lines 36-52; [if ssl_certificate:] is false for [None] and for the empty
    text. *)
Definition create_ssl_context `{Ssl}
           (ssl_certificate ssl_keyfile ssl_password : option string)
  : Outcome (option SSLContext) :=
  match ssl_certificate with
  | Some certificate =>
      if String.eqb certificate "" then Returned None
      else
        match load_cert_chain certificate ssl_keyfile ssl_password with
        | Returned _ =>
            Returned (Some (MkSSLContext certificate ssl_keyfile ssl_password))
        | Raised e => Raised e
        end
  | None => Returned None
  end.

(** The application [create_app] returns: the arguments its routes close
    over, its CORS settings and the executor it made. *)
Record Sanic (E : Type) : Type := MkSanic {
  app_settings : App;
  app_cors : Cors;
  app_executor : E
}.
Arguments MkSanic {E} app_settings app_cors app_executor.
Arguments app_settings {E} s.
Arguments app_cors {E} s.
Arguments app_executor {E} s.

(** What starting a server takes from outside this file: making an executor
    and registering the action package in it, the plugin hook, the number of
    workers [rasa_sdk.utils] computes (taken as a value) and the [SANIC_HOST]
    environment variable. *)
Class Startup (E : Type) : Type := {
  register_package : string -> Outcome E;
  attach_sanic_app_extensions : Sanic E -> Outcome unit;
  number_of_sanic_workers : Z;
  environ_SANIC_HOST : option string
}.

(** Lines 65-165, without the routes, which are [health], [webhook],
    [actions] and [exception_handler] above. *)
Definition create_app {E : Type} `{Startup E}
           (action_package_name : string) (cors_origins : Origins)
           (auto_reload enable_forwarding : bool)
           (forward_ip : string) (forward_port : Z) : Outcome (Sanic E) :=
  match register_package action_package_name with
  | Returned executor =>
      Returned (MkSanic (MkApp auto_reload enable_forwarding forward_ip forward_port)
                        (configure_cors cors_origins) executor)
  | Raised e => Raised e
  end.

(** What [run] does that can be seen: the lines it logs, the plugin hook and
    the final [app.run(host, port, ssl, workers)]. *)
Inductive StartupEvent (E : Type) : Type :=
| logged (message : string)
| attached (app : Sanic E)
| serving (app : Sanic E) (host : string) (port : Z)
          (ssl : option SSLContext) (workers : Z).
Arguments logged {E} message.
Arguments attached {E} app.
Arguments serving {E} app host port ssl workers.

(** An integer as an f-string prints it. *)
Definition decimal (n : Z) : string := NilZero.string_of_int (Z.to_int n).

Module Server.

(** Lines 168-196: the events of a start and the exception that ended it, if
    any. *)
Definition run {E : Type} `{Startup E} `{Ssl}
           (action_package_name : string) (port : Z) (cors_origins : Origins)
           (ssl_certificate ssl_keyfile ssl_password : option string)
           (auto_reload enable_forwarding : bool)
           (forward_ip : string) (forward_port : Z)
  : list (StartupEvent E) * option Exn :=
  let starting := logged "Starting action endpoint server..." in
  match create_app action_package_name cors_origins auto_reload enable_forwarding
                   forward_ip forward_port with
  | Raised e => ([starting], Some e)
  | Returned app =>
      match attach_sanic_app_extensions app with
      | Raised e => ([starting; logged "Starting plugins..."], Some e)
      | Returned _ =>
          match create_ssl_context ssl_certificate ssl_keyfile ssl_password with
          | Raised e =>
              ([starting; logged "Starting plugins..."; attached app], Some e)
          | Returned ssl_context =>
              let protocol :=
                match ssl_context with Some _ => "https" | None => "http" end in
              let host :=
                match environ_SANIC_HOST with Some h => h | None => "0.0.0.0" end in
              (([starting; logged "Starting plugins..."; attached app;
                 logged ("Action endpoint is up and running on "
                           ++ protocol ++ "://" ++ host ++ ":" ++ decimal port)]
                  ++ (if enable_forwarding
                      then [logged ("Forwarding to second Action endpoint on "
                                      ++ protocol ++ "://" ++ forward_ip ++ ":"
                                      ++ decimal forward_port)]
                      else [])
                  ++ [serving app host port ssl_context number_of_sanic_workers])%list,
               None)
          end
      end
  end.

End Server.

(** ** More samples

    The libraries of the sample deployment with a body that is a JSON list
    and a second server whose reply has no JSON body; an executor whose
    package has become unloadable; a host for starting the server. *)

Module Samples.

(** The text of the list holding the number one. *)
Definition list_text : bytes := Scenario.bytes_of_hex "5b315d".

Definition libraries : Libraries :=
  {| zlib_decompress := @zlib_decompress Scenario.libraries;
     json_loads := @json_loads Scenario.libraries;
     request_json := fun request =>
       if Scenario.bytes_eqb (body request) list_text
       then Returned (JArray [JNumber 1])
       else @request_json Scenario.libraries request;
     requests_post := fun url payload =>
       if String.eqb url "http://10.0.0.5:5056/webhook"
       then Returned (MkReply 204 (Raised (RequestException "JSONDecodeError")))
       else @requests_post Scenario.libraries url payload |}.

Definition broken_executor : Executor.State :=
  Executor.MkState Scenario.package
                   (Raised (OtherException "SyntaxError" "invalid syntax")) 0 [].

Definition post (app : App) (request : Request) (executor : Executor.State)
  : Run Executor.State HTTPResponse :=
  @webhook _ registry_executor libraries (gate_utils Scenario.sdk_version)
           app request executor.

Definition ssl : Ssl :=
  {| load_cert_chain := fun certificate _ _ =>
       if String.eqb certificate "server.pem" then Returned tt
       else Raised (OtherException "FileNotFoundError" "No such file or directory") |}.

Definition startup : Startup Executor.State :=
  {| register_package := fun name =>
       if String.eqb name "actions" then Returned Scenario.executor
       else Raised (OtherException "ModuleNotFoundError" "No module named that");
     attach_sanic_app_extensions := fun _ => Returned tt;
     number_of_sanic_workers := 1;
     environ_SANIC_HOST := None |}.



End Samples.

Ltac unfold_monad :=
  unfold bind, try_except, lib, exec, ret, raise in *.

(** Case analysis on the innermost scrutinee of the goal. *)
Ltac split_innermost :=
  match goal with
  | |- context [match ?x with _ => _ end] =>
      lazymatch x with
      | context [match _ with _ => _ end] => fail
      | _ => destruct x eqn:?
      end
  end.

Section Facts.

Context {E : Type} `{ActionExecutor E} `{Libraries} `{Utils}.
Variable app : App.

(** *** The monad *)

Lemma bind_run {A B : Type} (m : M E A) (k : A -> M E B) (ex : E) :
  bind m k ex =
    match m ex with
    | MkRun (Returned a) ex1 t1 =>
        match k a ex1 with
        | MkRun o ex2 t2 => MkRun o ex2 (t1 ++ t2)
        end
    | MkRun (Raised e) ex1 t1 => MkRun (Raised e) ex1 t1
    end.
Proof. reflexivity. Qed.

(** *** Decoding *)

Lemma decode_executor (request : Request) (ex : E) :
  executor_after (decode request ex) = ex.
Proof.
  unfold decode. unfold_monad.
  repeat (split_innermost; simpl in *; try congruence); reflexivity.
Qed.

Lemma decode_deflate (request : Request) (ex : E) :
  content_encoding_is_deflate request = true ->
  decode request ex =
    MkRun
      match zlib_decompress (body request) with
      | Returned data => json_loads data
      | Raised e => Raised e
      end
      ex
      ((zlib_decompress_call (body request),
        failure_of (zlib_decompress (body request)))
         :: match zlib_decompress (body request) with
            | Returned data => [(json_loads_call data, failure_of (json_loads data))]
            | Raised _ => []
            end).
Proof.
  intros D. unfold decode. rewrite D. unfold_monad.
  destruct (zlib_decompress (body request)); reflexivity.
Qed.

Lemma decode_plain (request : Request) (ex : E) :
  content_encoding_is_deflate request = false ->
  decode request ex =
    MkRun (request_json request) ex
          [(request_json_call, failure_of (request_json request))].
Proof.
  intros D. unfold decode. rewrite D. reflexivity.
Qed.

Lemma decode_trace (request : Request) (ex : E) :
  Forall (fun en => is_decode_call (fst en) = true) (trace (decode request ex)).
Proof.
  destruct (content_encoding_is_deflate request) eqn:D.
  - rewrite decode_deflate by assumption. simpl.
    destruct (zlib_decompress (body request)); repeat constructor.
  - rewrite decode_plain by assumption. repeat constructor.
Qed.

Lemma decode_failure (request : Request) (ex : E) (c : Call) (e : Exn) :
  In (c, Some e) (trace (decode request ex)) ->
  outcome (decode request ex) = Raised e.
Proof.
  destruct (content_encoding_is_deflate request) eqn:D.
  - rewrite decode_deflate by assumption. simpl.
    destruct (zlib_decompress (body request)) as [data | e0]; simpl.
    + destruct (json_loads data); simpl; intuition congruence.
    + intuition congruence.
  - rewrite decode_plain by assumption. simpl.
    destruct (request_json request); simpl; intuition congruence.
Qed.

(** *** The relay *)

Lemma forward_executor (c : Json) (n : string) (ex : E) :
  executor_after (forward app c n ex) = ex.
Proof.
  unfold forward. unfold_monad.
  repeat (split_innermost; simpl in *; try congruence); reflexivity.
Qed.

Lemma forward_trace (c : Json) (n : string) (ex : E) :
  Forall (fun en => forwarding_step (fst en) = true) (trace (forward app c n ex)).
Proof.
  unfold forward. unfold_monad.
  repeat (split_innermost; simpl in *; try congruence);
    repeat constructor.
Qed.

Lemma forward_error_status (c : Json) (n : string) (ex : E) (reply : Reply) :
  requests_post (forward_url app) c = Returned reply ->
  is_error_status (status_code reply) = true ->
  forward app c n ex =
    MkRun (Returned (inr (forwarding_failed_response n))) ex
          [(requests_post_call (forward_url app) c, None);
           (raise_for_status_call (status_code reply),
            Some (RequestException "HTTPError"))].
Proof.
  intros P S. unfold forward, raise_for_status. unfold_monad.
  rewrite P. simpl. rewrite S. reflexivity.
Qed.

Lemma forward_relayed (c : Json) (n : string) (ex : E) (reply : Reply) (r : Json) :
  requests_post (forward_url app) c = Returned reply ->
  is_error_status (status_code reply) = false ->
  reply_json reply = Returned r ->
  forward app c n ex =
    MkRun (Returned (inl r)) ex
          [(requests_post_call (forward_url app) c, None);
           (raise_for_status_call (status_code reply), None);
           (reply_json_call, None)].
Proof.
  intros P S J. unfold forward, raise_for_status. unfold_monad.
  rewrite P. simpl. rewrite S. simpl. rewrite J. reflexivity.
Qed.

(** A failure of a relay step either is a [RequestException], answered with
    504, or leaves the relay as it is. *)
Lemma forward_failure (c : Json) (n : string) (ex : E) (step : Call) (e : Exn) :
  In (step, Some e) (trace (forward app c n ex)) ->
  outcome (forward app c n ex) =
    if is_request_exception e
    then Returned (inr (forwarding_failed_response n))
    else Raised e.
Proof.
  unfold forward, raise_for_status. unfold_monad.
  repeat (split_innermost; simpl in *; try congruence);
    intuition (try congruence);
    repeat match goal with
           | J : (_, _) = (_, _) |- _ => inversion J; subst; clear J
           end; try discriminate; reflexivity.
Qed.

(** *** Dispatch *)

Lemma dispatch_returned (c : Json) (ex ex1 : E) (result : Json) :
  run c ex = (Returned result, ex1) ->
  dispatch app c ex = MkRun (Returned (inl result)) ex1 [(executor_run_call c, None)].
Proof.
  intros R. unfold dispatch. unfold_monad. rewrite R. reflexivity.
Qed.

Lemma dispatch_rejected (c : Json) (ex ex1 : E) (n m : string) :
  run c ex = (Raised (ActionExecutionRejection n m), ex1) ->
  dispatch app c ex =
    MkRun (Returned (inr (rejection_response n m))) ex1
          [(executor_run_call c, Some (ActionExecutionRejection n m))].
Proof.
  intros R. unfold dispatch. unfold_monad. rewrite R. reflexivity.
Qed.

Lemma dispatch_not_found (c : Json) (ex ex1 : E) (n m : string) :
  run c ex = (Raised (ActionNotFoundException n m), ex1) ->
  enable_forwarding app = false ->
  dispatch app c ex =
    MkRun (Returned (inr (not_found_response n m))) ex1
          [(executor_run_call c, Some (ActionNotFoundException n m))].
Proof.
  intros R F. unfold dispatch. unfold_monad. rewrite R. simpl. rewrite F.
  reflexivity.
Qed.

Lemma dispatch_forwarded (c : Json) (ex ex1 : E) (n m : string) :
  run c ex = (Raised (ActionNotFoundException n m), ex1) ->
  enable_forwarding app = true ->
  dispatch app c ex =
    MkRun (outcome (forward app c n ex1)) ex1
          ((executor_run_call c, Some (ActionNotFoundException n m))
             :: trace (forward app c n ex1)).
Proof.
  intros R F. unfold dispatch. unfold try_except at 1. unfold bind, exec.
  rewrite R. simpl. rewrite F.
  pose proof (forward_executor c n ex1) as X.
  destruct (forward app c n ex1); simpl in *. subst. reflexivity.
Qed.

Lemma dispatch_failed (c : Json) (ex ex1 : E) (e : Exn) :
  run c ex = (Raised e, ex1) ->
  is_dispatch_outcome e = false ->
  dispatch app c ex = MkRun (Raised e) ex1 [(executor_run_call c, Some e)].
Proof.
  intros R D. unfold dispatch. unfold_monad. rewrite R.
  destruct e; simpl in *; try discriminate; reflexivity.
Qed.

Lemma dispatch_trace (c : Json) (ex : E) :
  exists rest,
    trace (dispatch app c ex) =
      (executor_run_call c, failure_of (fst (run c ex))) :: rest
    /\ Forall (fun en => forwarding_step (fst en) = true) rest.
Proof.
  destruct (run c ex) as [[result | e] ex1] eqn:R.
  - rewrite dispatch_returned with (1 := R). simpl. eexists; split; [reflexivity | constructor].
  - destruct e as [n m | n m | d | d | k d];
      try (rewrite dispatch_failed with (1 := R) by reflexivity; simpl;
           eexists; split; [reflexivity | constructor]).
    + rewrite dispatch_rejected with (1 := R). simpl.
      eexists; split; [reflexivity | constructor].
    + destruct (enable_forwarding app) eqn:F.
      * rewrite dispatch_forwarded with (1 := R) (2 := F). simpl.
        eexists; split; [reflexivity | apply forward_trace].
      * rewrite dispatch_not_found with (1 := R) (2 := F). simpl.
        eexists; split; [reflexivity | constructor].
Qed.

(** A failure inside dispatch that no [except] clause matches leaves it. *)
Lemma dispatch_failure (c0 : Json) (ex0 : E) (c : Call) (e : Exn) :
  In (c, Some e) (trace (dispatch app c0 ex0)) ->
  is_dispatch_outcome e = false ->
  (forwarding_step c = true -> is_request_exception e = false) ->
  outcome (dispatch app c0 ex0) = Raised e.
Proof.
  intros I D F.
  destruct (run c0 ex0) as [[result | e0] ex1] eqn:Q.
  - rewrite dispatch_returned with (1 := Q) in I.
    destruct I as [I | []]; discriminate.
  - destruct (is_dispatch_outcome e0) eqn:D0.
    + destruct e0 as [n m | n m | d | d | k d]; try discriminate.
      * rewrite dispatch_rejected with (1 := Q) in I.
        destruct I as [I | []]. inversion I; subst. discriminate.
      * destruct (enable_forwarding app) eqn:FW.
        -- rewrite dispatch_forwarded with (1 := Q) (2 := FW) in *.
           simpl in *. destruct I as [I | I].
           ++ inversion I; subst. discriminate.
           ++ pose proof (forward_trace c0 n ex1) as FT.
              rewrite Forall_forall in FT. pose proof (FT _ I) as S.
              apply forward_failure in I. rewrite I, F by exact S.
              reflexivity.
        -- rewrite dispatch_not_found with (1 := Q) (2 := FW) in I.
           destruct I as [I | []]. inversion I; subst. discriminate.
    + rewrite dispatch_failed with (1 := Q) (2 := D0) in *.
      destruct I as [I | []]. inversion I; subst. reflexivity.
Qed.

(** *** The prologue *)

Ltac prologue_cases request ex a e ex1 t1 :=
  let DE := fresh "DE" in
  let DT := fresh "DT" in
  let DF := fresh "DF" in
  pose proof (decode_executor request ex) as DE;
  pose proof (decode_trace request ex) as DT;
  pose proof (decode_failure request ex) as DF;
  unfold prologue; rewrite !(bind_run (decode request));
  destruct (decode request ex) as [[a | e] ex1 t1]; simpl in DE, DT, DF; subst ex1;
  [ destruct a; unfold_monad; simpl;
    repeat (split_innermost; simpl; try congruence) | simpl ].

Lemma prologue_trace (request : Request) (ex : E) :
  Forall (fun en => pre_dispatch (fst en) = true) (trace (prologue app request ex)).
Proof.
  unfold prologue, decode. unfold_monad.
  repeat (split_innermost; simpl in *; try congruence);
    repeat constructor.
Qed.

Lemma prologue_trace_decode (request : Request) (ex : E) :
  exists rest,
    trace (prologue app request ex) = (trace (decode request ex) ++ rest)%list
    /\ Forall (fun en => is_decode_call (fst en) = false) rest.
Proof.
  prologue_cases request ex a e ex1 t1;
    try (eexists; split; [reflexivity | repeat constructor]).
  exists []. rewrite app_nil_r. split; [reflexivity | constructor].
Qed.

Lemma prologue_invalid_body (request : Request) (ex : E) :
  outcome (decode request ex) = Returned JNull ->
  prologue app request ex = MkRun (Returned None) ex (trace (decode request ex)).
Proof.
  pose proof (decode_executor request ex) as DE.
  unfold prologue; unfold bind at 1.
  destruct (decode request ex) as [[a | e] ex1 t1]; simpl in *; subst;
    intros Q; inversion Q; subst.
  unfold ret. rewrite app_nil_r. reflexivity.
Qed.

(** What a prologue that went through has done. *)
Lemma prologue_through (request : Request) (ex ex0 : E) (c : Json) (t0 : list Entry) :
  prologue app request ex = MkRun (Returned (Some c)) ex0 t0 ->
  outcome (decode request ex) = Returned c
  /\ c <> JNull
  /\ exists v,
       dict_get c "version" = Returned v
       /\ check_version_compatibility v = Returned tt
       /\ t0 = (trace (decode request ex)
                 ++ (dict_get_call "version", None)
                 :: (check_version_compatibility_call v, None)
                 :: (if auto_reload app then [(executor_reload_call, None)] else []))%list
       /\ (if auto_reload app then reload ex = (Returned tt, ex0) else ex0 = ex).
Proof.
  pose proof (decode_executor request ex) as DE.
  unfold prologue. unfold bind at 1.
  destruct (decode request ex) as [[a | e] ex1 t1]; simpl in *; subst;
    [ | discriminate ].
  destruct a; unfold_monad; simpl;
    repeat (split_innermost; simpl in *; try congruence);
    intros Q; inversion Q; subst; clear Q;
    repeat match goal with u : unit |- _ => destruct u end;
    (split; [reflexivity | split; [discriminate | ]]);
    eexists; repeat split; try reflexivity; assumption.
Qed.

(** A decoded call that passes the gate (and the reload, when there is one)
    gets through the prologue. *)
Lemma prologue_goes_through (request : Request) (ex ex0 : E) (c v : Json) :
  outcome (decode request ex) = Returned c ->
  c <> JNull ->
  dict_get c "version" = Returned v ->
  check_version_compatibility v = Returned tt ->
  (if auto_reload app then reload ex = (Returned tt, ex0) else ex0 = ex) ->
  prologue app request ex =
    MkRun (Returned (Some c)) ex0
          (trace (decode request ex)
             ++ (dict_get_call "version", None)
             :: (check_version_compatibility_call v, None)
             :: (if auto_reload app then [(executor_reload_call, None)] else [])).
Proof.
  pose proof (decode_executor request ex) as DE.
  intros D N G V R.
  unfold prologue. unfold bind at 1.
  destruct (decode request ex) as [[a | e] ex1 t1]; simpl in *; subst;
    [ | discriminate ].
  inversion D; subst; clear D.
  destruct c; try congruence; simpl in G; try discriminate.
  inversion G; subst v; clear G.
  unfold_monad; simpl. rewrite V.
  destruct (auto_reload app); subst; rewrite ?R; reflexivity.
Qed.


Lemma prologue_reloads (request : Request) (ex : E) (c v : Json) :
  outcome (decode request ex) = Returned c ->
  c <> JNull ->
  dict_get c "version" = Returned v ->
  check_version_compatibility v = Returned tt ->
  auto_reload app = true ->
  In (executor_reload_call, failure_of (fst (reload ex)))
     (trace (prologue app request ex)).
Proof.
  pose proof (decode_executor request ex) as DE.
  intros D N G V R.
  unfold prologue. rewrite bind_run.
  destruct (decode request ex) as [[a | e] ex1 t1]; simpl in *; subst;
    [ | discriminate ].
  inversion D; subst; clear D.
  destruct c; try congruence; simpl in G; try discriminate.
  inversion G; subst v; clear G.
  unfold_monad; simpl. rewrite V, R.
  destruct (reload ex) as [[u | e] ex0]; simpl;
    apply in_or_app; right; simpl; auto.
Qed.

Lemma prologue_failure (request : Request) (ex : E) (c : Call) (e : Exn) :
  In (c, Some e) (trace (prologue app request ex)) ->
  outcome (prologue app request ex) = Raised e.
Proof.
  prologue_cases request ex a e0 ex1 t1; intros I;
    try (apply in_app_or in I; destruct I as [I | I];
         [ apply DF in I; discriminate | simpl in I; intuition congruence ]).
  apply DF in I. congruence.
Qed.

Lemma prologue_no_reload (request : Request) (ex : E) (f : option Exn) :
  auto_reload app = false ->
  ~ In (executor_reload_call, f) (trace (prologue app request ex)).
Proof.
  prologue_cases request ex a e0 ex1 t1; intros A I;
    try congruence;
    try (apply in_app_or in I; destruct I as [I | I];
         [ | simpl in I; intuition congruence ]);
    rewrite Forall_forall in DT; apply DT in I; discriminate.
Qed.

(** *** The webhook and the application *)

Lemma webhook_after_prologue (request : Request) (ex : E) :
  webhook app request ex = after_prologue app (prologue app request ex).
Proof.
  unfold webhook, prologue, after_prologue, conclude, decode.
  unfold_monad.
  repeat (split_innermost; simpl in *; try congruence);
    rewrite ?app_nil_r; try reflexivity.
Qed.

(** What follows the prologue in a trace is dispatch: no decoding, no gate,
    no reload. *)
Lemma webhook_trace_prologue (request : Request) (ex : E) :
  exists rest,
    trace (webhook app request ex) = (trace (prologue app request ex) ++ rest)%list
    /\ Forall (fun en => pre_dispatch (fst en) = false) rest.
Proof.
  rewrite webhook_after_prologue.
  destruct (prologue app request ex) as [[[c0 | ] | e] ex0 t0]; simpl.
  - exists (trace (dispatch app c0 ex0)). split; [reflexivity | ].
    destruct (dispatch_trace c0 ex0) as (rest & T & FW). rewrite T.
    constructor; [reflexivity | ].
    rewrite Forall_forall in *. intros [[] ?] I; apply FW in I;
      simpl in *; congruence.
  - exists []. rewrite app_nil_r. split; [reflexivity | constructor].
  - exists []. rewrite app_nil_r. split; [reflexivity | constructor].
Qed.

Lemma webhook_prologue_entry (request : Request) (ex : E) (entry : Entry) :
  pre_dispatch (fst entry) = true ->
  In entry (trace (webhook app request ex)) ->
  In entry (trace (prologue app request ex)).
Proof.
  intros PD I.
  destruct (webhook_trace_prologue request ex) as (rest & T & ND).
  rewrite T in I. apply in_app_or in I. destruct I as [I | I]; [assumption | ].
  rewrite Forall_forall in ND. apply ND in I. congruence.
Qed.

Lemma webhook_prologue_raised (request : Request) (ex : E) (e : Exn) :
  outcome (prologue app request ex) = Raised e ->
  webhook app request ex =
    MkRun (Raised e) (executor_after (prologue app request ex))
          (trace (prologue app request ex)).
Proof.
  rewrite webhook_after_prologue.
  destruct (prologue app request ex) as [[[c0 | ] | e0] ex0 t0]; simpl;
    intros Q; inversion Q; subst. reflexivity.
Qed.

(** A call to [executor.run] made for a request is the dispatch that follows
    a prologue that went through. *)
Lemma webhook_run_entry (request : Request) (ex : E) (c : Json) (f : option Exn) :
  In (executor_run_call c, f) (trace (webhook app request ex)) ->
  exists ex0 t0,
    prologue app request ex = MkRun (Returned (Some c)) ex0 t0
    /\ Forall (fun en => pre_dispatch (fst en) = true) t0
    /\ webhook app request ex = conclude t0 (dispatch app c ex0)
    /\ f = failure_of (fst (run c ex0)).
Proof.
  rewrite webhook_after_prologue.
  pose proof (prologue_trace request ex) as PT.
  destruct (prologue app request ex) as [[[c0 | ] | e] ex0 t0]; simpl in *;
    intros I.
  - apply in_app_or in I. destruct I as [I | I].
    + rewrite Forall_forall in PT. apply PT in I. discriminate.
    + destruct (dispatch_trace c0 ex0) as (rest & T & FW).
      rewrite T in I. destruct I as [I | I].
      * inversion I; subst. exists ex0, t0. auto.
      * rewrite Forall_forall in FW. apply FW in I. discriminate.
  - rewrite Forall_forall in PT. apply PT in I. discriminate.
  - rewrite Forall_forall in PT. apply PT in I. discriminate.
Qed.

(** The run of a request whose call [executor.run] reported as unknown,
    with forwarding on: the prologue, the failed lookup, then the relay. *)
Lemma webhook_forwarded (request : Request) (ex : E) (c : Json) (n m : string) :
  In (executor_run_call c, Some (ActionNotFoundException n m))
     (trace (webhook app request ex)) ->
  enable_forwarding app = true ->
  exists ex0 ex1 t0,
    prologue app request ex = MkRun (Returned (Some c)) ex0 t0
    /\ Forall (fun en => pre_dispatch (fst en) = true) t0
    /\ webhook app request ex =
         conclude (t0 ++ [(executor_run_call c, Some (ActionNotFoundException n m))])
                  (forward app c n ex1).
Proof.
  intros I F.
  destruct (webhook_run_entry _ _ _ _ I) as (ex0 & t0 & P & PT & W & R).
  destruct (run c ex0) as [o ex1] eqn:Q. simpl in R.
  destruct o as [ | e]; simpl in R; [discriminate | ].
  inversion R; subst e; clear R.
  exists ex0, ex1, t0. split; [assumption | split; [assumption | ]].
  rewrite W, dispatch_forwarded with (1 := Q) (2 := F).
  pose proof (forward_executor c n ex1) as X.
  unfold conclude; simpl. rewrite X, <- app_assoc. reflexivity.
Qed.


(** The application's handler turns an exception that left a route into a
    500 response, when [request.json] can be read. *)
Lemma serve_raised (route : Request -> M E HTTPResponse) (request : Request)
      (ex : E) (e : Exn) (request_body : Json) :
  outcome (route request ex) = Raised e ->
  request_json request = Returned request_body ->
  outcome (serve route request ex) =
    Returned (server_error_response e request_body).
Proof.
  intros Q J. unfold serve, exception_handler. unfold_monad.
  destruct (route request ex) as [o ex1 t1]; simpl in *; subst.
  rewrite J. reflexivity.
Qed.

End Facts.

Lemma is_error_status_true (code : Z) :
  is_error_status code = true <-> 400 <= code < 600.
Proof. unfold is_error_status. rewrite andb_true_iff. lia. Qed.

Lemma is_error_status_false (code : Z) :
  is_error_status code = false <-> code < 400 \/ 600 <= code.
Proof. unfold is_error_status. rewrite andb_false_iff. lia. Qed.

Section Dispatching.

Context {E : Type} `{ActionExecutor E} `{Libraries} `{Utils}.
Variable app : App.
Variable request : Request.
Variable ex : E.

(** A relay step found in the trace of a forwarded request belongs to the
    relay. *)
Lemma forwarded_step (t0 : list Entry) (c : Json) (n : string) (ex1 : E)
      (entry run_entry : Entry) :
  Forall (fun en => pre_dispatch (fst en) = true) t0 ->
  forwarding_step (fst run_entry) = false ->
  forwarding_step (fst entry) = true ->
  In entry (trace (conclude (t0 ++ [run_entry]) (forward app c n ex1))) ->
  In entry (trace (forward app c n ex1)).
Proof.
  intros PT RE FS I. simpl in I.
  apply in_app_or in I. destruct I as [I | I]; [ | assumption].
  apply in_app_or in I. destruct I as [I | [I | []]].
  - rewrite Forall_forall in PT. apply PT in I.
    destruct entry as [[] ?]; simpl in *; discriminate.
  - subst. congruence.
Qed.

(** C1. Whenever [executor.run] raises [ActionExecutionRejection] for the
    call of a request, the webhook answers 400 with the body
    [{error: message, action_name}] and no step of the relay to the second
    server appears in the request's trace, whatever [enable_forwarding] and
    the forwarding target are. *)
Theorem rejection_is_client_error_and_never_forwarded
        (action_call : Json) (action_name message : string) :
  In (executor_run_call action_call,
      Some (ActionExecutionRejection action_name message))
     (trace (webhook app request ex)) ->
  outcome (webhook app request ex) =
    Returned (response_json
                (JObject [("error", JString message);
                          ("action_name", JString action_name)]) 400)
  /\ forall entry, In entry (trace (webhook app request ex)) ->
                   forwarding_step (fst entry) = false.
Proof.
  intros I.
  destruct (webhook_run_entry _ _ _ _ _ I) as (ex0 & t0 & P & PT & W & R).
  destruct (run action_call ex0) as [[result | e] ex1] eqn:Q;
    simpl in R; inversion R; subst e.
  rewrite W, dispatch_rejected with (1 := Q). simpl.
  split; [reflexivity | ].
  intros entry J. apply in_app_or in J. destruct J as [J | [J | []]].
  - rewrite Forall_forall in PT. apply PT in J.
    destruct entry as [[] ?]; simpl in *; congruence.
  - subst entry. reflexivity.
Qed.

(** C4. Whenever [executor.run] raises [ActionNotFoundException] and
    forwarding is disabled, the webhook answers 404 with the body
    [{error: message, action_name}]. *)
Theorem not_found_without_forwarding_is_404
        (action_call : Json) (action_name message : string) :
  In (executor_run_call action_call,
      Some (ActionNotFoundException action_name message))
     (trace (webhook app request ex)) ->
  enable_forwarding app = false ->
  outcome (webhook app request ex) =
    Returned (response_json
                (JObject [("error", JString message);
                          ("action_name", JString action_name)]) 404).
Proof.
  intros I F.
  destruct (webhook_run_entry _ _ _ _ _ I) as (ex0 & t0 & P & PT & W & R).
  destruct (run action_call ex0) as [[result | e] ex1] eqn:Q;
    simpl in R; inversion R; subst e.
  rewrite W, dispatch_not_found with (1 := Q) (2 := F). reflexivity.
Qed.

(** C3. Whenever [executor.run] raises [ActionNotFoundException], forwarding
    is enabled and [requests.post] itself raises a [RequestException] (the
    target cannot be reached, the transport fails), the webhook answers 504
    with the body [{error: "Forwarding request failed", action_name}], the
    name being the one the exception carries; that response is neither a
    not-found response nor a rejection response. *)
Theorem failed_relay_is_gateway_error
        (action_call payload : Json) (action_name message url description : string) :
  In (executor_run_call action_call,
      Some (ActionNotFoundException action_name message))
     (trace (webhook app request ex)) ->
  enable_forwarding app = true ->
  In (requests_post_call url payload, Some (RequestException description))
     (trace (webhook app request ex)) ->
  outcome (webhook app request ex) =
    Returned (response_json
                (JObject [("error", JString "Forwarding request failed");
                          ("action_name", JString action_name)]) 504)
  /\ (forall n m,
        response_json
          (JObject [("error", JString "Forwarding request failed");
                    ("action_name", JString action_name)]) 504
        <> response_json (JObject [("error", JString m); ("action_name", JString n)]) 404)
  /\ (forall n m,
        response_json
          (JObject [("error", JString "Forwarding request failed");
                    ("action_name", JString action_name)]) 504
        <> response_json (JObject [("error", JString m); ("action_name", JString n)]) 400).
Proof.
  intros I F J.
  destruct (webhook_forwarded _ _ _ _ _ _ I F) as (ex0 & ex1 & t0 & P & PT & W).
  split; [ | split; intros n m; discriminate].
  rewrite W in J. apply forwarded_step in J; try assumption; try reflexivity.
  apply forward_failure in J. rewrite W. simpl in *. rewrite J. reflexivity.
Qed.

(** C10, amended. For a call forwarded after [ActionNotFoundException] to a
    target that answers: a reply with a status from 400 to 599 gives the 504
    forwarding-failure response and the reply's body is never read; a reply
    with any status from 200 to 299 and a JSON body gives that body with
    status 200. *)
Theorem relay_depends_on_reply_status
        (action_call : Json) (action_name message : string) (reply : Reply) :
  In (executor_run_call action_call,
      Some (ActionNotFoundException action_name message))
     (trace (webhook app request ex)) ->
  enable_forwarding app = true ->
  requests_post (forward_url app) action_call = Returned reply ->
  (400 <= status_code reply < 600 ->
     outcome (webhook app request ex) =
       Returned (response_json
                   (JObject [("error", JString "Forwarding request failed");
                             ("action_name", JString action_name)]) 504)
     /\ forall failure, ~ In (reply_json_call, failure) (trace (webhook app request ex)))
  /\ (200 <= status_code reply < 300 ->
      forall result, reply_json reply = Returned result ->
        outcome (webhook app request ex) = Returned (response_json result 200)).
Proof.
  intros I F P.
  destruct (webhook_forwarded _ _ _ _ _ _ I F) as (ex0 & ex1 & t0 & Q & PT & W).
  split.
  - intros S. apply is_error_status_true in S.
    rewrite W, forward_error_status with (1 := P) (2 := S). simpl.
    split; [reflexivity | ].
    intros failure J. apply in_app_or in J. destruct J as [J | J].
    + apply in_app_or in J. destruct J as [J | [J | []]]; [ | discriminate].
      rewrite Forall_forall in PT. apply PT in J. discriminate.
    + destruct J as [J | [J | []]]; discriminate.
  - intros S result J.
    assert (is_error_status (status_code reply) = false) as S'
        by (apply is_error_status_false; lia).
    rewrite W, forward_relayed with (1 := P) (2 := S') (3 := J). reflexivity.
Qed.

(** C2, amended. Whenever [executor.run] raises [ActionNotFoundException],
    forwarding is enabled and the target answers with a status outside
    400-599 and a JSON body, the webhook has posted the action call it
    decoded from the request, as it is, to
    [http://forward_ip:forward_port/webhook], and answers with the target's
    JSON body and status 200. *)
Theorem unknown_action_is_relayed
        (action_call : Json) (action_name message : string) (reply : Reply)
        (result : Json) :
  In (executor_run_call action_call,
      Some (ActionNotFoundException action_name message))
     (trace (webhook app request ex)) ->
  enable_forwarding app = true ->
  requests_post (forward_url app) action_call = Returned reply ->
  (status_code reply < 400 \/ 600 <= status_code reply) ->
  reply_json reply = Returned result ->
  outcome (decode request ex) = Returned action_call
  /\ In (requests_post_call
           ("http://" ++ forward_ip app ++ ":"
              ++ NilZero.string_of_int (Z.to_int (forward_port app)) ++ "/webhook")
           action_call, None)
        (trace (webhook app request ex))
  /\ outcome (webhook app request ex) = Returned (response_json result 200).
Proof.
  intros I F P S J.
  destruct (webhook_forwarded _ _ _ _ _ _ I F) as (ex0 & ex1 & t0 & Q & PT & W).
  apply is_error_status_false in S.
  pose proof Q as D. apply prologue_through in D. destruct D as (D & _).
  rewrite W, forward_relayed with (1 := P) (2 := S) (3 := J).
  split; [assumption | ]. split; [ | reflexivity].
  simpl. apply in_or_app. right. left. reflexivity.
Qed.

End Dispatching.

Lemma deflate_header (request : Request) :
  content_encoding_is_deflate request = true <->
  headers_get (headers request) "Content-Encoding" = Some "deflate".
Proof.
  unfold content_encoding_is_deflate.
  destruct (headers_get (headers request) "Content-Encoding") as [v | ].
  - rewrite String.eqb_eq. split; congruence.
  - split; discriminate.
Qed.

Section Decoding.

Context {E : Type} `{ActionExecutor E} `{Libraries} `{Utils}.
Variable app : App.
Variable request : Request.
Variable ex : E.

(** The call given to [executor.run] is the one decoded from the request. *)
Lemma dispatched_call_is_decoded (c : Json) (f : option Exn) :
  In (executor_run_call c, f) (trace (webhook app request ex)) ->
  outcome (decode request ex) = Returned c.
Proof.
  intros I.
  destruct (webhook_run_entry _ _ _ _ _ I) as (ex0 & t0 & P & _).
  apply prologue_through in P. tauto.
Qed.

Lemma webhook_trace_decode :
  exists rest,
    trace (webhook app request ex) = (trace (decode request ex) ++ rest)%list
    /\ Forall (fun en => is_decode_call (fst en) = false) rest.
Proof.
  destruct (webhook_trace_prologue app request ex) as (r1 & T1 & N1).
  destruct (prologue_trace_decode app request ex) as (r2 & T2 & N2).
  exists (r2 ++ r1)%list. rewrite T1, T2, app_assoc. split; [reflexivity | ].
  apply Forall_app. split; [assumption | ].
  rewrite Forall_forall in *. intros [[] ?] I; apply N1 in I;
    simpl in *; congruence.
Qed.

(** C7. A request whose [Content-Encoding] header is [deflate] has its body
    passed to [zlib.decompress] first and the decompressed data to
    [json.loads] next, [request.json] is not used, and any call given to
    [executor.run] is the document [json.loads] returned; a request with no
    such header, or another value, starts with [request.json], never calls
    [zlib.decompress] or [json.loads], and any call given to [executor.run]
    is what [request.json] returned. *)
Theorem deflate_body_is_decompressed_before_parsing :
  (headers_get (headers request) "Content-Encoding" = Some "deflate" ->
     (exists rest,
         trace (webhook app request ex) =
           (zlib_decompress_call (body request),
            failure_of (zlib_decompress (body request))) :: rest
         /\ forall data, zlib_decompress (body request) = Returned data ->
              exists rest', rest = (json_loads_call data, failure_of (json_loads data))
                                     :: rest')
     /\ (forall c f, In (executor_run_call c, f) (trace (webhook app request ex)) ->
           exists data, zlib_decompress (body request) = Returned data
                        /\ json_loads data = Returned c)
     /\ (forall f, ~ In (request_json_call, f) (trace (webhook app request ex))))
  /\ (headers_get (headers request) "Content-Encoding" <> Some "deflate" ->
      (exists rest,
          trace (webhook app request ex) =
            (request_json_call, failure_of (request_json request)) :: rest)
      /\ (forall c f, In (executor_run_call c, f) (trace (webhook app request ex)) ->
            request_json request = Returned c)
      /\ (forall data f,
            ~ In (zlib_decompress_call data, f) (trace (webhook app request ex))
            /\ ~ In (json_loads_call data, f) (trace (webhook app request ex)))).
Proof.
  destruct webhook_trace_decode as (rest & T & ND).
  rewrite Forall_forall in ND.
  split; intros D.
  - apply deflate_header in D.
    rewrite decode_deflate in T by assumption. simpl in T.
    split; [ | split].
    + eexists. split; [exact T | ].
      intros data Z. rewrite Z. eexists. reflexivity.
    + intros c f I. apply dispatched_call_is_decoded in I.
      rewrite decode_deflate in I by assumption. simpl in I.
      destruct (zlib_decompress (body request)) as [data | e];
        [ | discriminate ].
      exists data. auto.
    + intros f I. rewrite T in I.
      destruct (zlib_decompress (body request)) as [data | e]; simpl in I;
        repeat (destruct I as [I | I]; [discriminate | ]);
        apply ND in I; discriminate.
  - assert (content_encoding_is_deflate request = false) as D'.
    { destruct (content_encoding_is_deflate request) eqn:Q; [ | reflexivity].
      apply deflate_header in Q. contradiction. }
    rewrite decode_plain in T by assumption. simpl in T.
    split; [ | split].
    + eexists. exact T.
    + intros c f I. apply dispatched_call_is_decoded in I.
      rewrite decode_plain in I by assumption. exact I.
    + intros data f. rewrite T.
      split; intros [I | I]; try discriminate; apply ND in I; discriminate.
Qed.

(** C6, amended. A request whose body decodes to [None] gets 400 with
    [{error: "Invalid body request"}]: the executor is left as it was and
    nothing but the decoding calls is made.  The webhook does not look at
    the name: any other decoded call, once it has passed the gate and the
    optional reload, is given to [executor.run]. *)
Theorem absent_body_is_client_error :
  (outcome (decode request ex) = Returned JNull ->
     outcome (webhook app request ex) =
       Returned (response_json (JObject [("error", JString "Invalid body request")]) 400)
     /\ executor_after (webhook app request ex) = ex
     /\ forall entry, In entry (trace (webhook app request ex)) ->
                      is_decode_call (fst entry) = true)
  /\ (forall c v ex0,
        outcome (decode request ex) = Returned c ->
        c <> JNull ->
        dict_get c "version" = Returned v ->
        check_version_compatibility v = Returned tt ->
        (if auto_reload app then reload ex = (Returned tt, ex0) else ex0 = ex) ->
        In (executor_run_call c, failure_of (fst (run c ex0)))
           (trace (webhook app request ex))).
Proof.
  split.
  - intros D. rewrite webhook_after_prologue, prologue_invalid_body by assumption.
    simpl. split; [reflexivity | split; [reflexivity | ]].
    pose proof (decode_trace request ex) as DT. rewrite Forall_forall in DT.
    exact DT.
  - intros c v ex0 D N G V R.
    rewrite webhook_after_prologue.
    rewrite prologue_goes_through with (1 := D) (2 := N) (3 := G) (4 := V) (5 := R).
    simpl. destruct (dispatch_trace app c ex0) as (rest & T & _). rewrite T.
    apply in_or_app. right. left. reflexivity.
Qed.

End Decoding.

Section Failures.

Context {E : Type} `{ActionExecutor E} `{Libraries} `{Utils}.
Variable app : App.
Variable request : Request.
Variable ex : E.

(** C8, amended. A failure raised by any call made for a request leaves the
    webhook as it is, unless it is an [ActionExecutionRejection] or an
    [ActionNotFoundException], or a [RequestException] raised by a step of
    the relay to the second server (which the webhook answers with 504).
    The application's [exception_handler] then answers 500 with
    [{error: str(exception), request_body: request.json}], provided
    [request.json] can be read for the request. *)
Theorem unclassified_failure_reaches_exception_handler (c : Call) (e : Exn) :
  In (c, Some e) (trace (webhook app request ex)) ->
  is_dispatch_outcome e = false ->
  (forwarding_step c = true -> is_request_exception e = false) ->
  outcome (webhook app request ex) = Raised e
  /\ forall request_body,
       request_json request = Returned request_body ->
       outcome (serve (webhook app) request ex) =
         Returned (response_json
                     (JObject [("error", JString (str e));
                               ("request_body", request_body)]) 500).
Proof.
  intros I D F.
  assert (outcome (webhook app request ex) = Raised e) as Q.
  { rewrite webhook_after_prologue in *.
    pose proof (@prologue_failure _ _ _ _ app request ex c e) as PF.
    destruct (prologue app request ex) as [[[c0 | ] | e0] ex0 t0];
      simpl in *; try (apply PF in I; congruence).
    apply in_app_or in I. destruct I as [I | I].
    - apply PF in I. discriminate.
    - rewrite dispatch_failure with (1 := I) (2 := D) (3 := F). reflexivity. }
  split; [assumption | ].
  intros request_body J. apply serve_raised; assumption.
Qed.

End Failures.

Section Gated.

Context {E : Type} `{ActionExecutor E} `{Libraries}.
Variable sdk_version : string.
Variable app : App.
Variable request : Request.
Variable ex : E.


End Gated.

Section Reloading.

Context {E : Type} `{ActionExecutor E} `{Libraries} `{Utils}.
Variable app : App.
Variable request : Request.
Variable ex : E.

Lemma actions_run :
  actions app request ex =
    if auto_reload app then
      match reload ex with
      | (Returned _, ex1) =>
          MkRun (Returned (response_json
                             (JArray (map (fun k => JObject [("name", JString k)])
                                          (actions_keys ex1))) 200))
                ex1
                [(executor_reload_call, None); (executor_actions_keys_call, None)]
      | (Raised e, ex1) => MkRun (Raised e) ex1 [(executor_reload_call, Some e)]
      end
    else
      MkRun (Returned (response_json
                         (JArray (map (fun k => JObject [("name", JString k)])
                                      (actions_keys ex))) 200))
            ex [(executor_actions_keys_call, None)].
Proof.
  unfold actions. unfold_monad.
  destruct (auto_reload app); [ | reflexivity].
  destruct (reload ex) as [[u | e] ex1]; reflexivity.
Qed.

(** C9. With auto-reload on: a webhook request whose body is valid (it
    decodes to a call other than [None] that the version gate accepts) calls
    [executor.reload]; whenever a call is given to [executor.run], a
    successful [executor.reload] comes before it in the trace and the call
    runs on the reloaded executor; and the [/actions] route calls
    [executor.reload] first and lists the names of the reloaded executor.
    With auto-reload off, neither route calls [executor.reload]. *)
Theorem reload_follows_auto_reload :
  (auto_reload app = true ->
     (forall c v,
         outcome (decode request ex) = Returned c ->
         c <> JNull ->
         dict_get c "version" = Returned v ->
         check_version_compatibility v = Returned tt ->
         In (executor_reload_call, failure_of (fst (reload ex)))
            (trace (webhook app request ex)))
     /\ (forall c f,
           In (executor_run_call c, f) (trace (webhook app request ex)) ->
           exists before after,
             trace (webhook app request ex) =
               (before ++ (executor_reload_call, None) :: after)%list
             /\ In (executor_run_call c, f) after
             /\ f = failure_of (fst (run c (snd (reload ex)))))
     /\ (exists rest,
            trace (actions app request ex) =
              (executor_reload_call, failure_of (fst (reload ex))) :: rest)
     /\ (forall u, fst (reload ex) = Returned u ->
           trace (actions app request ex) =
             [(executor_reload_call, None); (executor_actions_keys_call, None)]
           /\ outcome (actions app request ex) =
                Returned (response_json
                            (JArray (map (fun k => JObject [("name", JString k)])
                                         (actions_keys (snd (reload ex))))) 200)))
  /\ (auto_reload app = false ->
      (forall f, ~ In (executor_reload_call, f) (trace (webhook app request ex)))
      /\ (forall f, ~ In (executor_reload_call, f) (trace (actions app request ex)))).
Proof.
  split; intros A.
  - split; [ | split; [ | split]].
    + intros c v D N G V.
      destruct (webhook_trace_prologue app request ex) as (rest & T & _).
      rewrite T. apply in_or_app. left.
      eapply prologue_reloads; eassumption.
    + intros c f I.
      destruct (webhook_run_entry _ _ _ _ _ I) as (ex0 & t0 & P & PT & W & R).
      apply prologue_through in P.
      destruct P as (D & N & v & G & V & T0 & RL). rewrite A in T0, RL.
      rewrite W. simpl. subst t0.
      exists (trace (decode request ex)
                ++ [(dict_get_call "version", None);
                    (check_version_compatibility_call v, None)])%list,
             (trace (dispatch app c ex0)).
      split; [ | split].
      * rewrite <- !app_assoc. reflexivity.
      * destruct (dispatch_trace app c ex0) as (rest & T & _).
        rewrite T, R. left. reflexivity.
      * rewrite RL. exact R.
    + rewrite actions_run, A.
      destruct (reload ex) as [[u | e] ex1]; eexists; reflexivity.
    + intros u R. rewrite actions_run, A.
      destruct (reload ex) as [[u' | e] ex1]; simpl in R; [ | discriminate].
      split; reflexivity.
  - split; intros f I.
    + apply webhook_prologue_entry in I; [ | reflexivity].
      apply prologue_no_reload in I; assumption.
    + rewrite actions_run, A in I. destruct I as [I | []]. discriminate.
Qed.

End Reloading.

(** ** The sample deployment at work *)

Ltac found := vm_compute; repeat first [left; reflexivity | right].

(** C1 at work: [action_book] refuses to run while forwarding to a live
    second server is on. *)
Lemma rejection_witness :
  In (executor_run_call (Scenario.call_of "action_book"),
      Some (ActionExecutionRejection "action_book" "No date was given."))
     (trace (Scenario.post (Scenario.forwarding_app "10.0.0.2")
                           (Scenario.plain Scenario.book_text)))
  /\ outcome (Scenario.post (Scenario.forwarding_app "10.0.0.2")
                            (Scenario.plain Scenario.book_text)) =
       Returned (response_json
                   (JObject [("error", JString "No date was given.");
                             ("action_name", JString "action_book")]) 400)
  /\ forall entry,
       In entry (trace (Scenario.post (Scenario.forwarding_app "10.0.0.2")
                                      (Scenario.plain Scenario.book_text))) ->
       forwarding_step (fst entry) = false.
Proof.
  assert (In (executor_run_call (Scenario.call_of "action_book"),
              Some (ActionExecutionRejection "action_book" "No date was given."))
             (trace (Scenario.post (Scenario.forwarding_app "10.0.0.2")
                                   (Scenario.plain Scenario.book_text)))) as I
      by found.
  split; [exact I | ].
  exact (@rejection_is_client_error_and_never_forwarded
           _ registry_executor Scenario.libraries (gate_utils Scenario.sdk_version)
           (Scenario.forwarding_app "10.0.0.2") (Scenario.plain Scenario.book_text)
           Scenario.executor _ _ _ I).
Defined.

(** C4 at work: an unknown action on a server that does not forward. *)
Lemma not_found_witness :
  In (executor_run_call (Scenario.call_of "action_missing"),
      Some (ActionNotFoundException
              "action_missing" (Executor.not_found_message "action_missing")))
     (trace (Scenario.post Scenario.default_app (Scenario.plain Scenario.missing_text)))
  /\ enable_forwarding Scenario.default_app = false
  /\ outcome (Scenario.post Scenario.default_app (Scenario.plain Scenario.missing_text)) =
       Returned (response_json
                   (JObject [("error",
                              JString (Executor.not_found_message "action_missing"));
                             ("action_name", JString "action_missing")]) 404).
Proof.
  assert (In (executor_run_call (Scenario.call_of "action_missing"),
              Some (ActionNotFoundException
                      "action_missing" (Executor.not_found_message "action_missing")))
             (trace (Scenario.post Scenario.default_app
                                   (Scenario.plain Scenario.missing_text)))) as I
      by found.
  split; [exact I | split; [reflexivity | ]].
  exact (@not_found_without_forwarding_is_404
           _ registry_executor Scenario.libraries (gate_utils Scenario.sdk_version)
           Scenario.default_app (Scenario.plain Scenario.missing_text)
           Scenario.executor _ _ _ I eq_refl).
Defined.

(** C3 at work: an unknown action, forwarded to an address where nothing
    listens. *)
Lemma failed_relay_witness :
  In (executor_run_call (Scenario.call_of "action_missing"),
      Some (ActionNotFoundException
              "action_missing" (Executor.not_found_message "action_missing")))
     (trace (Scenario.post (Scenario.forwarding_app "10.0.0.9")
                           (Scenario.plain Scenario.missing_text)))
  /\ enable_forwarding (Scenario.forwarding_app "10.0.0.9") = true
  /\ In (requests_post_call "http://10.0.0.9:5056/webhook"
                            (Scenario.call_of "action_missing"),
         Some (RequestException "ConnectionError"))
        (trace (Scenario.post (Scenario.forwarding_app "10.0.0.9")
                              (Scenario.plain Scenario.missing_text)))
  /\ outcome (Scenario.post (Scenario.forwarding_app "10.0.0.9")
                            (Scenario.plain Scenario.missing_text)) =
       Returned (response_json
                   (JObject [("error", JString "Forwarding request failed");
                             ("action_name", JString "action_missing")]) 504).
Proof.
  assert (In (executor_run_call (Scenario.call_of "action_missing"),
              Some (ActionNotFoundException
                      "action_missing" (Executor.not_found_message "action_missing")))
             (trace (Scenario.post (Scenario.forwarding_app "10.0.0.9")
                                   (Scenario.plain Scenario.missing_text)))) as I
      by found.
  assert (In (requests_post_call "http://10.0.0.9:5056/webhook"
                                 (Scenario.call_of "action_missing"),
              Some (RequestException "ConnectionError"))
             (trace (Scenario.post (Scenario.forwarding_app "10.0.0.9")
                                   (Scenario.plain Scenario.missing_text)))) as J
      by found.
  split; [exact I | split; [reflexivity | split; [exact J | ]]].
  exact (proj1 (@failed_relay_is_gateway_error
                  _ registry_executor Scenario.libraries
                  (gate_utils Scenario.sdk_version)
                  (Scenario.forwarding_app "10.0.0.9")
                  (Scenario.plain Scenario.missing_text)
                  Scenario.executor _ _ _ _ _ _ I eq_refl J)).
Defined.

(** C10, amended, at work: the second server answers 404 to the relayed
    call, and another one answers 201. *)
Lemma reply_status_witness :
  (400 <= 404 < 600
   /\ outcome (Scenario.post (Scenario.forwarding_app "10.0.0.4")
                             (Scenario.plain Scenario.missing_text)) =
        Returned (response_json
                    (JObject [("error", JString "Forwarding request failed");
                              ("action_name", JString "action_missing")]) 504))
  /\ (200 <= 201 < 300
      /\ outcome (Scenario.post (Scenario.forwarding_app "10.0.0.3")
                                (Scenario.plain Scenario.missing_text)) =
           Returned (response_json Scenario.remote_result 200)).
Proof.
  split; (split; [lia | ]).
  - refine (proj1 (proj1 (@relay_depends_on_reply_status
             _ registry_executor Scenario.libraries (gate_utils Scenario.sdk_version)
             (Scenario.forwarding_app "10.0.0.4") (Scenario.plain Scenario.missing_text)
             Scenario.executor (Scenario.call_of "action_missing") "action_missing"
             (Executor.not_found_message "action_missing")
             (MkReply 404 (Returned Scenario.remote_not_found))
             _ eq_refl eq_refl) _)).
    + found.
    + simpl. lia.
  - refine (proj2 (@relay_depends_on_reply_status
             _ registry_executor Scenario.libraries (gate_utils Scenario.sdk_version)
             (Scenario.forwarding_app "10.0.0.3") (Scenario.plain Scenario.missing_text)
             Scenario.executor (Scenario.call_of "action_missing") "action_missing"
             (Executor.not_found_message "action_missing")
             (MkReply 201 (Returned Scenario.remote_result))
             _ eq_refl eq_refl) _ _ eq_refl).
    + found.
    + simpl. lia.
Defined.

(** C2 as stated fails: the second server replies to the relayed call, with
    status 404 and a JSON body, and the webhook answers 504 with a body of its
    own instead of the target's. *)
Lemma error_reply_is_not_relayed :
  In (executor_run_call (Scenario.call_of "action_missing"),
      Some (ActionNotFoundException
              "action_missing" (Executor.not_found_message "action_missing")))
     (trace (Scenario.post (Scenario.forwarding_app "10.0.0.4")
                           (Scenario.plain Scenario.missing_text)))
  /\ enable_forwarding (Scenario.forwarding_app "10.0.0.4") = true
  /\ @requests_post Scenario.libraries
       (forward_url (Scenario.forwarding_app "10.0.0.4"))
       (Scenario.call_of "action_missing") =
       Returned (MkReply 404 (Returned Scenario.remote_not_found))
  /\ outcome (Scenario.post (Scenario.forwarding_app "10.0.0.4")
                            (Scenario.plain Scenario.missing_text)) =
       Returned (response_json
                   (JObject [("error", JString "Forwarding request failed");
                             ("action_name", JString "action_missing")]) 504)
  /\ forall status,
       outcome (Scenario.post (Scenario.forwarding_app "10.0.0.4")
                              (Scenario.plain Scenario.missing_text)) <>
         Returned (response_json Scenario.remote_not_found status).
Proof.
  split; [found | split; [reflexivity | split; [reflexivity | split]]].
  - reflexivity.
  - intros status Q. vm_compute in Q. discriminate.
Qed.

(** C2, amended, at work: a deflated call for an unknown action, relayed to
    a second server that answers 200. *)
Lemma relay_witness :
  outcome (@decode Executor.State Scenario.libraries
             (Scenario.deflate Scenario.missing_deflated) Scenario.executor) =
    Returned (Scenario.call_of "action_missing")
  /\ In (requests_post_call "http://10.0.0.2:5056/webhook"
                            (Scenario.call_of "action_missing"), None)
        (trace (Scenario.post (Scenario.forwarding_app "10.0.0.2")
                              (Scenario.deflate Scenario.missing_deflated)))
  /\ outcome (Scenario.post (Scenario.forwarding_app "10.0.0.2")
                            (Scenario.deflate Scenario.missing_deflated)) =
       Returned (response_json Scenario.remote_result 200).
Proof.
  refine (@unknown_action_is_relayed
            _ registry_executor Scenario.libraries (gate_utils Scenario.sdk_version)
            (Scenario.forwarding_app "10.0.0.2")
            (Scenario.deflate Scenario.missing_deflated)
            Scenario.executor (Scenario.call_of "action_missing") "action_missing"
            (Executor.not_found_message "action_missing")
            (MkReply 200 (Returned Scenario.remote_result)) Scenario.remote_result
            _ eq_refl eq_refl _ eq_refl).
  - found.
  - simpl. lia.
Defined.


(** C6 as stated fails: the body is the empty object, so the call has no
    name; the webhook hands it to the executor, whose registry is consulted,
    and the answer is 404, not 400. *)
Lemma nameless_call_reaches_the_registry :
  @request_json Scenario.libraries (Scenario.plain Scenario.nameless_text) =
    Returned (JObject [])
  /\ Executor.call_name (JObject []) = ""
  /\ In (executor_run_call (JObject []),
         Some (ActionNotFoundException "" (Executor.not_found_message "")))
        (trace (Scenario.post Scenario.default_app
                              (Scenario.plain Scenario.nameless_text)))
  /\ Executor.lookups
       (executor_after (Scenario.post Scenario.default_app
                                      (Scenario.plain Scenario.nameless_text))) =
       S (Executor.lookups Scenario.executor)
  /\ outcome (Scenario.post Scenario.default_app
                            (Scenario.plain Scenario.nameless_text)) =
       Returned (response_json
                   (JObject [("error", JString (Executor.not_found_message ""));
                             ("action_name", JString "")]) 404)
  /\ forall response,
       outcome (Scenario.post Scenario.default_app
                              (Scenario.plain Scenario.nameless_text)) =
         Returned response ->
       status response <> 400.
Proof.
  split; [reflexivity | split; [reflexivity | split; [found | ]]].
  split; [reflexivity | split; [reflexivity | ]].
  intros response Q. vm_compute in Q. inversion Q; subst. discriminate.
Qed.

(** C6, amended, at work: a request with no body at all, and the nameless call
    again. *)
Lemma absent_body_witness :
  (outcome (@decode Executor.State Scenario.libraries (Scenario.plain [])
              Scenario.executor) = Returned JNull
   /\ outcome (Scenario.post Scenario.default_app (Scenario.plain [])) =
        Returned (response_json
                    (JObject [("error", JString "Invalid body request")]) 400)
   /\ executor_after (Scenario.post Scenario.default_app (Scenario.plain [])) =
        Scenario.executor)
  /\ In (executor_run_call (JObject []),
         failure_of (fst (Executor.run (JObject []) Scenario.executor)))
        (trace (Scenario.post Scenario.default_app
                              (Scenario.plain Scenario.nameless_text))).
Proof.
  split.
  - split; [reflexivity | ].
    destruct (proj1 (@absent_body_is_client_error
                       _ registry_executor Scenario.libraries
                       (gate_utils Scenario.sdk_version)
                       Scenario.default_app (Scenario.plain []) Scenario.executor)
                    eq_refl) as (Q & X & _).
    split; assumption.
  - refine (proj2 (@absent_body_is_client_error
                     _ registry_executor Scenario.libraries
                     (gate_utils Scenario.sdk_version)
                     Scenario.default_app (Scenario.plain Scenario.nameless_text)
                     Scenario.executor)
                  (JObject []) JNull Scenario.executor eq_refl _ eq_refl eq_refl eq_refl).
    discriminate.
Defined.

(** C7 at work: the deflated call is decompressed, then parsed, then run. *)
Lemma deflate_witness :
  headers_get (headers (Scenario.deflate Scenario.missing_deflated)) "Content-Encoding" =
    Some "deflate"
  /\ (exists rest,
        trace (Scenario.post Scenario.default_app
                             (Scenario.deflate Scenario.missing_deflated)) =
          (zlib_decompress_call Scenario.missing_deflated, None)
            :: (json_loads_call Scenario.missing_text, None) :: rest)
  /\ In (executor_run_call (Scenario.call_of "action_missing"),
         Some (ActionNotFoundException
                 "action_missing" (Executor.not_found_message "action_missing")))
        (trace (Scenario.post Scenario.default_app
                              (Scenario.deflate Scenario.missing_deflated))).
Proof.
  assert (headers_get (headers (Scenario.deflate Scenario.missing_deflated))
                      "Content-Encoding" = Some "deflate") as D by reflexivity.
  split; [exact D | split; [ | found]].
  destruct (proj1 (@deflate_body_is_decompressed_before_parsing
                     _ registry_executor Scenario.libraries
                     (gate_utils Scenario.sdk_version)
                     Scenario.default_app
                     (Scenario.deflate Scenario.missing_deflated)
                     Scenario.executor) D) as ((rest & T & N) & _).
  destruct (N Scenario.missing_text eq_refl) as (rest' & R).
  exists rest'. unfold Scenario.post. rewrite T, R. reflexivity.
Defined.

(** C8 as stated fails: the relay raises a [ConnectionError], which is
    neither of the two SDK exceptions; the webhook catches it and answers 504,
    and the exception handler is not involved. *)
Lemma relay_failure_is_caught_by_the_webhook :
  In (requests_post_call "http://10.0.0.9:5056/webhook"
                         (Scenario.call_of "action_missing"),
      Some (RequestException "ConnectionError"))
     (trace (Scenario.post (Scenario.forwarding_app "10.0.0.9")
                           (Scenario.plain Scenario.missing_text)))
  /\ is_dispatch_outcome (RequestException "ConnectionError") = false
  /\ outcome (Scenario.post (Scenario.forwarding_app "10.0.0.9")
                            (Scenario.plain Scenario.missing_text)) <>
       Raised (RequestException "ConnectionError")
  /\ outcome (Scenario.served (Scenario.forwarding_app "10.0.0.9")
                              (Scenario.plain Scenario.missing_text)) =
       Returned (response_json
                   (JObject [("error", JString "Forwarding request failed");
                             ("action_name", JString "action_missing")]) 504).
Proof.
  split; [found | split; [reflexivity | split; [ | reflexivity]]].
  intros Q. vm_compute in Q. discriminate.
Qed.

(** C8, amended, at work: [action_buggy] divides by zero. *)
Lemma unclassified_failure_witness :
  In (executor_run_call (Scenario.call_of "action_buggy"),
      Some (OtherException "ZeroDivisionError" "division by zero"))
     (trace (Scenario.post Scenario.default_app (Scenario.plain Scenario.buggy_text)))
  /\ outcome (Scenario.post Scenario.default_app (Scenario.plain Scenario.buggy_text)) =
       Raised (OtherException "ZeroDivisionError" "division by zero")
  /\ outcome (Scenario.served Scenario.default_app (Scenario.plain Scenario.buggy_text)) =
       Returned (response_json
                   (JObject [("error", JString "division by zero");
                             ("request_body", Scenario.call_of "action_buggy")]) 500).
Proof.
  assert (In (executor_run_call (Scenario.call_of "action_buggy"),
              Some (OtherException "ZeroDivisionError" "division by zero"))
             (trace (Scenario.post Scenario.default_app
                                   (Scenario.plain Scenario.buggy_text)))) as I
      by found.
  split; [exact I | ].
  destruct (@unclassified_failure_reaches_exception_handler
              _ registry_executor Scenario.libraries (gate_utils Scenario.sdk_version)
              Scenario.default_app (Scenario.plain Scenario.buggy_text)
              Scenario.executor _ _ I eq_refl) as (Q & R).
  - discriminate.
  - split; [exact Q | ]. exact (R _ eq_refl).
Defined.

(** The handler reads [request.json] itself, which fails on a deflated body
    and on a body that is not JSON: such a failure does not come back as the
    handler's 500 response. *)
Example exception_handler_fails_on_deflated_body :
  outcome (Scenario.post Scenario.default_app (Scenario.deflate Scenario.buggy_deflated)) =
    Raised (OtherException "ZeroDivisionError" "division by zero")
  /\ outcome (Scenario.served Scenario.default_app
                              (Scenario.deflate Scenario.buggy_deflated)) =
       Raised (OtherException "BadRequest" "Failed when parsing body as json")
  /\ outcome (Scenario.served Scenario.default_app
                              (Scenario.plain Scenario.malformed_text)) =
       Raised (OtherException "BadRequest" "Failed when parsing body as json").
Proof. repeat split; reflexivity. Qed.

(** C9 at work: the greeting on a server with auto-reload on. *)
Lemma reload_witness :
  auto_reload Scenario.reloading_app = true
  /\ In (executor_reload_call, None)
        (trace (Scenario.post Scenario.reloading_app (Scenario.plain Scenario.greet_text)))
  /\ exists before after,
       trace (Scenario.post Scenario.reloading_app (Scenario.plain Scenario.greet_text)) =
         (before ++ (executor_reload_call, None) :: after)%list
       /\ In (executor_run_call (Scenario.versioned_call "action_greet" "3.1.0"), None)
             after.
Proof.
  destruct (proj1 (@reload_follows_auto_reload
                     _ registry_executor Scenario.libraries
                     (gate_utils Scenario.sdk_version)
                     Scenario.reloading_app (Scenario.plain Scenario.greet_text)
                     Scenario.executor) eq_refl) as (R & B & _).
  split; [reflexivity | split].
  - refine (R (Scenario.versioned_call "action_greet" "3.1.0") (JString "3.1.0")
              eq_refl _ eq_refl eq_refl).
    discriminate.
  - destruct (B (Scenario.versioned_call "action_greet" "3.1.0") None)
      as (before & after & T & I & _); [found | ].
    exists before, after. split; assumption.
Defined.


(** ** More on the webhook *)

Section Webhook.

Context {E : Type} `{ActionExecutor E} `{Libraries} `{Utils}.
Variable app : App.
Variable request : Request.
Variable ex : E.

Lemma dispatch_executor (c : Json) (ex0 : E) :
  executor_after (dispatch app c ex0) = snd (run c ex0).
Proof.
  destruct (run c ex0) as [[result | e] ex1] eqn:Q.
  - rewrite dispatch_returned with (1 := Q). reflexivity.
  - destruct (is_dispatch_outcome e) eqn:D.
    + destruct e as [n m | n m | d | d | k d]; try discriminate.
      * rewrite dispatch_rejected with (1 := Q). reflexivity.
      * destruct (enable_forwarding app) eqn:F.
        -- rewrite dispatch_forwarded with (1 := Q) (2 := F). reflexivity.
        -- rewrite dispatch_not_found with (1 := Q) (2 := F). reflexivity.
    + rewrite dispatch_failed with (1 := Q) (2 := D). reflexivity.
Qed.

Lemma forward_trace_head (c : Json) (n : string) (ex0 : E) :
  exists rest,
    trace (forward app c n ex0) =
      (requests_post_call (forward_url app) c,
       failure_of (requests_post (forward_url app) c)) :: rest.
Proof.
  unfold forward, raise_for_status. unfold_monad.
  repeat (split_innermost; simpl in *; try congruence);
    eexists; reflexivity.
Qed.

Lemma relay_step_needs_forwarding (entry : Entry) :
  In entry (trace (webhook app request ex)) ->
  forwarding_step (fst entry) = true ->
  enable_forwarding app = false ->
  False.
Proof.
  intros I S F.
  pose proof (prologue_trace app request ex) as PT. rewrite Forall_forall in PT.
  rewrite webhook_after_prologue in *.
  destruct (prologue app request ex) as [[[c0 | ] | e0] ex0 t0]; simpl in *;
    try (apply PT in I; destruct entry as [[] ?]; simpl in *; discriminate).
  apply in_app_or in I. destruct I as [I | I];
    [apply PT in I; destruct entry as [[] ?]; simpl in *; discriminate | ].
  destruct (run c0 ex0) as [[result | e] ex1] eqn:Q.
  - rewrite dispatch_returned with (1 := Q) in I.
    destruct I as [I | []]. subst. discriminate.
  - destruct (is_dispatch_outcome e) eqn:DO.
    + destruct e as [n m | n m | d | d | k d]; try discriminate.
      * rewrite dispatch_rejected with (1 := Q) in I.
        destruct I as [I | []]. subst. discriminate.
      * rewrite dispatch_not_found with (1 := Q) (2 := F) in I.
        destruct I as [I | []]. subst. discriminate.
    + rewrite dispatch_failed with (1 := Q) (2 := DO) in I.
      destruct I as [I | []]. subst. discriminate.
Qed.

(** The executor a dispatched call runs on. *)
Lemma dispatch_state (c : Json) (ex0 : E) (t0 : list Entry) :
  prologue app request ex = MkRun (Returned (Some c)) ex0 t0 ->
  ex0 = if auto_reload app then snd (reload ex) else ex.
Proof.
  intros P. apply prologue_through in P.
  destruct P as (_ & _ & v & _ & _ & _ & R).
  destruct (auto_reload app); [rewrite R; reflexivity | assumption].
Qed.

(** When [executor.run] returns a result for the call of a request, the
    webhook answers 200 with that result as the body, [run] having worked on
    the executor as reloaded (if auto-reload is on), and no step of the relay
    is made. *)
Theorem returned_result_is_the_response (action_call : Json) :
  In (executor_run_call action_call, None) (trace (webhook app request ex)) ->
  exists result,
    fst (run action_call (if auto_reload app then snd (reload ex) else ex)) =
      Returned result
    /\ outcome (webhook app request ex) = Returned (response_json result 200)
    /\ forall entry, In entry (trace (webhook app request ex)) ->
                     forwarding_step (fst entry) = false.
Proof.
  intros I.
  destruct (webhook_run_entry _ _ _ _ _ I) as (ex0 & t0 & P & PT & W & R).
  pose proof (dispatch_state _ _ _ P) as S. rewrite <- S.
  destruct (run action_call ex0) as [[result | e] ex1] eqn:Q;
    simpl in R; [ | discriminate].
  exists result. split; [reflexivity | ].
  rewrite W, dispatch_returned with (1 := Q). simpl.
  split; [reflexivity | ].
  intros entry J. apply in_app_or in J. destruct J as [J | [J | []]].
  - rewrite Forall_forall in PT. apply PT in J.
    destruct entry as [[] ?]; simpl in *; congruence.
  - subst entry. reflexivity.
Qed.

Ltac prologue_paths :=
  let DE := fresh "DE" in
  pose proof (decode_executor request ex) as DE;
  unfold prologue; rewrite !(bind_run (decode request));
  destruct (decode request ex) as [[? | ?] ? ?]; simpl in DE; subst;
  [ match goal with a : Json |- _ => destruct a end; unfold_monad; simpl;
    repeat (split_innermost; simpl; try congruence) | simpl ].

Lemma prologue_frame :
  (forall f, ~ In (executor_reload_call, f) (trace (prologue app request ex))) ->
  executor_after (prologue app request ex) = ex.
Proof.
  prologue_paths; intros N; try reflexivity;
    exfalso; eapply N; apply in_or_app; right; simpl; eauto.
Qed.

Lemma prologue_reload_raised (e : Exn) :
  In (executor_reload_call, Some e) (trace (prologue app request ex)) ->
  reload ex = (Raised e, executor_after (prologue app request ex)).
Proof.
  pose proof (decode_trace request ex) as DT. rewrite Forall_forall in DT.
  prologue_paths; intros I;
    try (apply DT in I; discriminate);
    (apply in_app_or in I; destruct I as [I | I];
     [apply DT in I; discriminate | ]);
    simpl in I;
    repeat match goal with
           | J : _ \/ _ |- _ => destruct J
           | J : False |- _ => destruct J
           | J : (_, _) = (_, _) |- _ => inversion J; subst; clear J
           end;
    first [assumption | reflexivity].
Qed.

(** The executor changes only by [reload] and [run]: a request that calls no
    executor method leaves it as it was, and after a request whose call was
    given to [executor.run] it is what [run] left, starting from the executor
    as reloaded (if auto-reload is on); decoding, the gate, the relay and the
    responses do not touch it. *)
Theorem executor_changes_only_by_reload_and_run :
  ((forall entry, In entry (trace (webhook app request ex)) ->
                  executor_call (fst entry) = false) ->
   executor_after (webhook app request ex) = ex)
  /\ (forall c f,
        In (executor_run_call c, f) (trace (webhook app request ex)) ->
        executor_after (webhook app request ex) =
          snd (run c (if auto_reload app then snd (reload ex) else ex))).
Proof.
  split.
  - intros N.
    assert (forall f, ~ In (executor_reload_call, f) (trace (prologue app request ex)))
      as NR.
    { intros f I. destruct (webhook_trace_prologue app request ex) as (rest & T & _).
      specialize (N (executor_reload_call, f)). rewrite T in N.
      simpl in N. discriminate N. apply in_or_app. left. exact I. }
    pose proof (prologue_frame NR) as PF.
    rewrite webhook_after_prologue in *.
    destruct (prologue app request ex) as [[[c0 | ] | e0] ex0 t0]; simpl in *;
      try assumption.
    destruct (dispatch_trace app c0 ex0) as (rest & T & _).
    specialize (N (executor_run_call c0, failure_of (fst (run c0 ex0)))).
    simpl in N. discriminate N. apply in_or_app. right. rewrite T. left. reflexivity.
  - intros c f I.
    destruct (webhook_run_entry _ _ _ _ _ I) as (ex0 & t0 & P & PT & W & R).
    rewrite <- (dispatch_state _ _ _ P), W. simpl. apply dispatch_executor.
Qed.

(** When auto-reload is on and [executor.reload] raises, the request ends
    there: the webhook raises that exception, the executor is what the failed
    reload left, and [executor.run] is not called. *)
Theorem failed_reload_stops_the_request (e : Exn) :
  In (executor_reload_call, Some e) (trace (webhook app request ex)) ->
  outcome (webhook app request ex) = Raised e
  /\ reload ex = (Raised e, executor_after (webhook app request ex))
  /\ forall c f, ~ In (executor_run_call c, f) (trace (webhook app request ex)).
Proof.
  intros I. apply webhook_prologue_entry in I; [ | reflexivity].
  pose proof (prologue_failure _ _ _ _ _ I) as Q.
  pose proof (prologue_reload_raised _ I) as R.
  rewrite webhook_prologue_raised with (1 := Q). simpl.
  split; [reflexivity | split; [assumption | ]].
  intros c f J.
  pose proof (prologue_trace app request ex) as PT.
  rewrite Forall_forall in PT. apply PT in J. discriminate.
Qed.

(** A body that decodes to something other than [None] and other than a
    [dict] (a list, a number, a text, a boolean) makes
    [action_call.get("version")] fail: the webhook raises an
    [AttributeError], the version gate is not consulted and the executor is
    not touched. *)
Theorem body_without_get_is_an_attribute_error (c : Json) :
  outcome (decode request ex) = Returned c ->
  c <> JNull ->
  (forall fields, c <> JObject fields) ->
  exists description,
    webhook app request ex =
      MkRun (Raised (OtherException "AttributeError" description)) ex
            (trace (decode request ex)
               ++ [(dict_get_call "version",
                    Some (OtherException "AttributeError" description))]).
Proof.
  intros D N O. eexists.
  rewrite webhook_after_prologue.
  pose proof (decode_executor request ex) as DE.
  unfold prologue. rewrite bind_run.
  destruct (decode request ex) as [[a | e] ex1 t1]; simpl in *; subst;
    [ | discriminate].
  inversion D; subst; clear D.
  destruct c; try congruence; try (exfalso; eapply O; reflexivity);
    unfold_monad; simpl; reflexivity.
Qed.

(** A step of the relay is made only for a call that [executor.run] reported
    as not found, and only with forwarding enabled; the relay then starts by
    posting the call decoded from the request to the forwarding address.  So
    with forwarding disabled the webhook never contacts a second server. *)
Theorem relay_only_after_not_found (entry : Entry) :
  In entry (trace (webhook app request ex)) ->
  forwarding_step (fst entry) = true ->
  enable_forwarding app = true
  /\ exists c n m,
       outcome (decode request ex) = Returned c
       /\ In (executor_run_call c, Some (ActionNotFoundException n m))
             (trace (webhook app request ex))
       /\ In (requests_post_call (forward_url app) c,
              failure_of (requests_post (forward_url app) c))
             (trace (webhook app request ex)).
Proof.
  intros I S.
  pose proof (prologue_trace app request ex) as PT. rewrite Forall_forall in PT.
  rewrite webhook_after_prologue in *.
  destruct (prologue app request ex) as [[[c0 | ] | e0] ex0 t0] eqn:P; simpl in *;
    try (apply PT in I; destruct entry as [[] ?]; simpl in *; discriminate).
  apply in_app_or in I. destruct I as [I | I];
    [apply PT in I; destruct entry as [[] ?]; simpl in *; discriminate | ].
  apply prologue_through in P. destruct P as (D & _).
  destruct (run c0 ex0) as [[result | e] ex1] eqn:Q.
  - rewrite dispatch_returned with (1 := Q) in I.
    destruct I as [I | []]. subst. discriminate.
  - destruct (is_dispatch_outcome e) eqn:DO.
    + destruct e as [n m | n m | d | d | k d]; try discriminate.
      * rewrite dispatch_rejected with (1 := Q) in I.
        destruct I as [I | []]. subst. discriminate.
      * destruct (enable_forwarding app) eqn:F.
        -- split; [reflexivity | ]. exists c0, n, m.
           rewrite dispatch_forwarded with (1 := Q) (2 := F). simpl.
           split; [assumption | split].
           ++ apply in_or_app. right. left. reflexivity.
           ++ destruct (forward_trace_head c0 n ex1) as (rest & T). rewrite T.
              apply in_or_app. right. right. left. reflexivity.
        -- rewrite dispatch_not_found with (1 := Q) (2 := F) in I.
           destruct I as [I | []]. subst. discriminate.
    + rewrite dispatch_failed with (1 := Q) (2 := DO) in I.
      destruct I as [I | []]. subst. discriminate.
Qed.

(** Whatever step of the relay raises a [RequestException] (the post, the
    status check, or reading a reply whose body is not JSON), the webhook
    answers 504 with the name of the action that was not found. *)
Theorem request_exception_in_relay_is_504
        (c : Json) (n m d : string) (step : Call) :
  In (executor_run_call c, Some (ActionNotFoundException n m))
     (trace (webhook app request ex)) ->
  In (step, Some (RequestException d)) (trace (webhook app request ex)) ->
  forwarding_step step = true ->
  outcome (webhook app request ex) =
    Returned (response_json
                (JObject [("error", JString "Forwarding request failed");
                          ("action_name", JString n)]) 504).
Proof.
  intros I J S.
  destruct (enable_forwarding app) eqn:F.
  - destruct (webhook_forwarded _ _ _ _ _ _ I F) as (ex0 & ex1 & t0 & P & PT & W).
    rewrite W in J. apply forwarded_step in J; try assumption; try reflexivity.
    apply forward_failure in J. rewrite W. simpl in *. rewrite J. reflexivity.
  - destruct (relay_step_needs_forwarding _ J S F).
Qed.

Lemma prologue_same_reload (other : App) :
  auto_reload other = auto_reload app ->
  prologue other request ex = prologue app request ex.
Proof. intros A. unfold prologue. rewrite A. reflexivity. Qed.

(** The forwarding settings matter only for a call reported as not found:
    two servers that differ only in them handle a request in exactly the same
    way (same response or exception, same executor, same calls) unless
    [executor.run] raises [ActionNotFoundException]. *)
Theorem forwarding_settings_matter_only_for_not_found (other : App) :
  auto_reload other = auto_reload app ->
  (forall c n m,
      ~ In (executor_run_call c, Some (ActionNotFoundException n m))
           (trace (webhook app request ex))) ->
  webhook other request ex = webhook app request ex.
Proof.
  intros A N.
  rewrite !webhook_after_prologue in *. rewrite (prologue_same_reload _ A).
  destruct (prologue app request ex) as [[[c0 | ] | e0] ex0 t0]; simpl in *;
    try reflexivity.
  destruct (run c0 ex0) as [[result | e] ex1] eqn:Q.
  - rewrite !dispatch_returned with (1 := Q). reflexivity.
  - destruct (is_dispatch_outcome e) eqn:DO.
    + destruct e as [n m | n m | d | d | k d]; try discriminate.
      * rewrite !dispatch_rejected with (1 := Q). reflexivity.
      * exfalso. apply (N c0 n m). apply in_or_app. right.
        destruct (dispatch_trace app c0 ex0) as (rest & T & _).
        rewrite T, Q. left. reflexivity.
    + rewrite !dispatch_failed with (1 := Q) (2 := DO). reflexivity.
Qed.

Ltac webhook_paths :=
  unfold webhook, decode, dispatch, forward, raise_for_status; unfold_monad;
  repeat (split_innermost; simpl; try congruence).

(** The webhook answers with status 200, 400, 404 or 504 and no other; 404
    only with forwarding disabled and 504 only with forwarding enabled. *)
Theorem webhook_status_codes (response : HTTPResponse) :
  outcome (webhook app request ex) = Returned response ->
  (status response = 200 \/ status response = 400
   \/ status response = 404 \/ status response = 504)
  /\ (status response = 404 -> enable_forwarding app = false)
  /\ (status response = 504 -> enable_forwarding app = true).
Proof.
  webhook_paths; intros Q; inversion Q; subst; simpl;
    (split; [tauto | split; intros X; first [discriminate X | reflexivity | assumption]]).
Qed.

(** The calls of a request come in a fixed order, each kind at most once:
    decoding, [get("version")], the gate, [reload], [run], then the post, the
    status check and the reading of the reply. *)
Theorem webhook_calls_in_order :
  StronglySorted Z.lt
    (map (fun entry => phase (fst entry)) (trace (webhook app request ex))).
Proof.
  webhook_paths; repeat constructor.
Qed.

(** One request gives at most one call of [executor.run] and at most one
    post to the second server: nothing is retried. *)
Theorem at_most_one_run_and_one_post :
  (calls is_run_call (trace (webhook app request ex)) <= 1)%nat
  /\ (calls is_post_call (trace (webhook app request ex)) <= 1)%nat.
Proof.
  unfold calls. webhook_paths; split; auto.
Qed.

End Webhook.

(** ** The other routes and the exception handler *)

Section Application.

Context {E : Type} `{ActionExecutor E} `{Libraries} `{Utils}.
Variable app : App.
Variable request : Request.
Variable ex : E.

(** The [/actions] route does not look at the request.  It fails exactly
    when auto-reload is on and [executor.reload] raises, with that exception;
    otherwise it answers 200 with one [{name}] object per key of the executor
    it leaves, in the order of the keys. *)
Theorem actions_lists_names_or_fails_with_reload :
  (forall other, actions app other ex = actions app request ex)
  /\ (forall e, outcome (actions app request ex) = Raised e <->
                auto_reload app = true /\ fst (reload ex) = Raised e)
  /\ (forall response,
        outcome (actions app request ex) = Returned response ->
        response =
          response_json
            (JArray (map (fun k => JObject [("name", JString k)])
                         (actions_keys (executor_after (actions app request ex)))))
            200).
Proof.
  split; [reflexivity | ].
  rewrite actions_run.
  destruct (auto_reload app); [destruct (reload ex) as [[u | e0] ex1] | ]; simpl;
    (split; [intros e; split; [intros Q | intros [A Q]];
             try discriminate; inversion Q; subst; auto
            | intros response Q; inversion Q; subst; reflexivity]).
Qed.

(** When [request.json] cannot be read, the exception handler fails with the
    error of [request.json]: the exception that left the route is lost, and
    the last call made is the failed [request.json]. *)
Theorem handler_failure_masks_the_error
        (route : Request -> M E HTTPResponse) (e1 e2 : Exn) :
  outcome (route request ex) = Raised e1 ->
  request_json request = Raised e2 ->
  outcome (serve route request ex) = Raised e2
  /\ trace (serve route request ex) =
       (trace (route request ex) ++ [(request_json_call, Some e2)])%list
  /\ executor_after (serve route request ex) = executor_after (route request ex).
Proof.
  intros Q J. unfold serve, exception_handler. unfold_monad.
  destruct (route request ex) as [o ex1 t1]; simpl in *; subst.
  rewrite J. simpl. auto.
Qed.

(** A request without deflate encoding whose body [request.json] cannot
    parse is not answered by this file: the webhook raises the parse error
    at once, the exception handler reads [request.json] again and fails in
    the same way, and nothing else is called. *)
Theorem unparseable_plain_body_is_not_answered (e : Exn) :
  content_encoding_is_deflate request = false ->
  request_json request = Raised e ->
  serve (webhook app) request ex =
    MkRun (Raised e) ex [(request_json_call, Some e); (request_json_call, Some e)].
Proof.
  intros D J. unfold serve, exception_handler, webhook.
  unfold_monad. rewrite decode_plain by assumption. rewrite J. reflexivity.
Qed.

End Application.

(** ** Starting *)

Section Starting.

Context {E : Type} `{Startup E} `{Ssl}.

(** [configure_cors] never hands [None] or an empty list to [CORS]: an
    argument that is [None], the empty text or the empty list is configured as
    the empty text, any other argument as it is, always for the pattern [/*]
    and with automatic options; so configuring with what was configured
    changes nothing. *)
Theorem cors_origins_are_never_none (cors_origins : Origins) :
  exists origins,
    configure_cors cors_origins = MkCors [("/*", [("origins", origins)])] true
    /\ origins <> no_origins
    /\ origins <> origin_list []
    /\ (cors_origins = no_origins \/ cors_origins = origin_text ""
        \/ cors_origins = origin_list [] <-> origins = origin_text "")
    /\ (cors_origins <> no_origins ->
        cors_origins <> origin_text "" ->
        cors_origins <> origin_list [] ->
        origins = cors_origins)
    /\ configure_cors origins = configure_cors cors_origins.
Proof.
  unfold configure_cors.
  destruct cors_origins as [ | origin | [ | o l]]; simpl;
    try destruct (String.eqb_spec origin ""); subst; simpl;
    eexists; (split; [reflexivity | ]);
    (split; [discriminate | ]); (split; [discriminate | ]);
    (split; [intuition (try discriminate; try congruence) | ]);
    (split; [intros N1 N2 N3; try reflexivity; congruence | ]);
    simpl; try reflexivity.
  destruct (String.eqb_spec origin ""); [contradiction | reflexivity].
Qed.

(** [create_ssl_context] gives no context exactly when the certificate is
    [None] or the empty text, and then does not look at key file or password
    and cannot fail; a context it gives holds the certificate, key file and
    password it was given, loaded without error. *)
Theorem ssl_context_only_with_certificate
        (ssl_certificate ssl_keyfile ssl_password : option string) :
  (create_ssl_context ssl_certificate ssl_keyfile ssl_password = Returned None <->
   ssl_certificate = None \/ ssl_certificate = Some "")
  /\ (forall context,
        create_ssl_context ssl_certificate ssl_keyfile ssl_password =
          Returned (Some context) ->
        context = MkSSLContext (certfile context) ssl_keyfile ssl_password
        /\ ssl_certificate = Some (certfile context)
        /\ load_cert_chain (certfile context) ssl_keyfile ssl_password = Returned tt)
  /\ (forall e,
        create_ssl_context ssl_certificate ssl_keyfile ssl_password = Raised e ->
        exists certificate,
          ssl_certificate = Some certificate
          /\ load_cert_chain certificate ssl_keyfile ssl_password = Raised e).
Proof.
  unfold create_ssl_context.
  destruct ssl_certificate as [certificate | ].
  - destruct (String.eqb_spec certificate "").
    + subst. repeat split; auto; discriminate.
    + destruct (load_cert_chain certificate ssl_keyfile ssl_password) as [[] | e0] eqn:L.
      * split; [split; [discriminate | intros [Q | Q]; congruence] | ].
        split; [ | discriminate].
        intros context Q. inversion Q; subst. simpl. auto.
      * split; [split; [discriminate | intros [Q | Q]; congruence] | ].
        split; [discriminate | ].
        intros e Q. inversion Q; subst. eauto.
  - repeat split; auto; discriminate.
Qed.

End Starting.

Section Serving.

Context {E : Type} `{Startup E} `{Ssl}.
Variable package : string.
Variable port : Z.
Variable cors : Origins.
Variable certificate key pass : option string.
Variable reloading forwarding : bool.
Variable ip : string.
Variable fport : Z.

Let started : list (StartupEvent E) * option Exn :=
  Server.run package port cors certificate key pass reloading forwarding ip fport.

Ltac startup_paths :=
  unfold started, Server.run;
  destruct (create_app package cors reloading forwarding ip fport) as [a | e1] eqn:CA;
  [ destruct (attach_sanic_app_extensions a) as [u | e2] eqn:AT;
    [ destruct (create_ssl_context certificate key pass) as [s | e3] eqn:CS | ] | ];
  simpl.

Ltac settle :=
  repeat match goal with
         | J : _ /\ _ |- _ => destruct J
         | J : _ \/ _ |- _ => destruct J
         | J : exists _, _ |- _ => destruct J
         | J : False |- _ => destruct J
         | J : Returned _ = Returned _ |- _ => inversion J; subst; clear J
         | J : Raised _ = Raised _ |- _ => inversion J; subst; clear J
         | J : Some _ = Some _ |- _ => inversion J; subst; clear J
         end;
  try discriminate; try congruence.

(** [run] ends in [app.run] exactly when creating the application, the
    plugin hook called on that application and the making of the SSL context
    all succeed, and otherwise ends with the exception of the first of the
    three that fails.  The server is then started last, with the application
    [create_app] made from the arguments of [run], on the host of
    [SANIC_HOST] (on 0.0.0.0 when that is not set), on the given port, with
    the SSL context made from the certificate arguments and with the workers
    of [number_of_sanic_workers]. *)
Theorem server_starts_unless_startup_fails :
  (snd started = None <->
   exists app host p ssl workers, In (serving app host p ssl workers) (fst started))
  /\ (snd started = None <->
      exists app u ssl,
        create_app package cors reloading forwarding ip fport = Returned app
        /\ attach_sanic_app_extensions app = Returned u
        /\ create_ssl_context certificate key pass = Returned ssl)
  /\ (forall e,
        snd started = Some e <->
        create_app package cors reloading forwarding ip fport = Raised e
        \/ exists app,
             create_app package cors reloading forwarding ip fport = Returned app
             /\ (attach_sanic_app_extensions app = Raised e
                 \/ exists u,
                      attach_sanic_app_extensions app = Returned u
                      /\ create_ssl_context certificate key pass = Raised e))
  /\ forall app host p ssl workers,
       In (serving app host p ssl workers) (fst started) ->
       create_app package cors reloading forwarding ip fport = Returned app
       /\ (exists u, attach_sanic_app_extensions app = Returned u)
       /\ create_ssl_context certificate key pass = Returned ssl
       /\ host = match environ_SANIC_HOST with Some h => h | None => "0.0.0.0" end
       /\ p = port
       /\ workers = number_of_sanic_workers
       /\ exists before,
            fst started = (before ++ [serving app host p ssl workers])%list.
Proof.
  startup_paths.
  - split; [ | split; [ | split]].
    + split; [intros _ | reflexivity].
      do 5 eexists. do 4 right. apply in_or_app. right. left. reflexivity.
    + split; [intros _; exists a, u, s; auto | reflexivity].
    + intros e. split; [discriminate | intros Q; settle].
    + intros app host p ssl workers I.
      repeat (destruct I as [I | I]; [discriminate | ]).
      apply in_app_or in I. destruct I as [I | [I | []]].
      * destruct forwarding; [destruct I as [I | []] | destruct I]; discriminate.
      * inversion I; subst.
        split; [reflexivity | split; [exists u; assumption | ]].
        repeat split.
        eexists (_ :: _ :: _ :: _ :: _)%list. simpl. reflexivity.
  - split; [ | split; [ | split]].
    + split; [discriminate | ].
      intros (app & host & p & ssl & workers & I).
      repeat (destruct I as [I | I]; [discriminate | ]). destruct I.
    + split; [discriminate | intros Q; settle].
    + intros e. split; [intros Q; settle; right; exists a; split; [reflexivity | ];
                        right; exists u; auto
                       | intros Q; settle].
    + intros app host p ssl workers I.
      repeat (destruct I as [I | I]; [discriminate | ]). destruct I.
  - split; [ | split; [ | split]].
    + split; [discriminate | ].
      intros (app & host & p & ssl & workers & I).
      repeat (destruct I as [I | I]; [discriminate | ]). destruct I.
    + split; [discriminate | intros Q; settle].
    + intros e. split; [intros Q; settle; right; exists a; auto
                       | intros Q; settle].
    + intros app host p ssl workers I.
      repeat (destruct I as [I | I]; [discriminate | ]). destruct I.
  - split; [ | split; [ | split]].
    + split; [discriminate | ].
      intros (app & host & p & ssl & workers & I).
      repeat (destruct I as [I | I]; [discriminate | ]). destruct I.
    + split; [discriminate | intros Q; settle].
    + intros e. split; [intros Q; settle; left; reflexivity | intros Q; settle].
    + intros app host p ssl workers I.
      repeat (destruct I as [I | I]; [discriminate | ]). destruct I.
Qed.

(** A server that starts has announced its address with the scheme https
    when it was given a certificate (other than the empty text) and http
    otherwise, and it serves with an SSL context in the first case only. *)
Theorem announced_scheme_follows_the_certificate
        (app : Sanic E) (host : string) (p : Z) (ssl : option SSLContext)
        (workers : Z) :
  In (serving app host p ssl workers) (fst started) ->
  (ssl = None <-> certificate = None \/ certificate = Some "")
  /\ In (logged ("Action endpoint is up and running on "
                   ++ match ssl with Some _ => "https" | None => "http" end
                   ++ "://" ++ host ++ ":" ++ decimal port))
        (fst started).
Proof.
  startup_paths; intros I;
    repeat (destruct I as [I | I]; [discriminate | ]); try destruct I.
  apply in_app_or in I. destruct I as [I | [I | []]].
  - destruct forwarding; [destruct I as [I | []] | destruct I]; discriminate.
  - inversion I; subst. split.
    + unfold create_ssl_context in CS.
      destruct certificate as [c | ].
      * destruct (String.eqb_spec c "").
        -- inversion CS; subst. split; auto.
        -- destruct (load_cert_chain c key pass); inversion CS; subst.
           split; [discriminate | intros [Q | Q]; congruence].
      * inversion CS; subst. split; auto.
    + do 3 right. left. reflexivity.
Qed.

(** A server that starts with forwarding enabled has announced the second
    server under its own scheme, https if it serves with SSL, whereas the
    address its webhook relays to always has the scheme http; with forwarding
    disabled it has logged nothing about forwarding. *)
Theorem forwarding_is_announced_with_the_servers_scheme
        (app : Sanic E) (host : string) (p : Z) (ssl : option SSLContext)
        (workers : Z) :
  In (serving app host p ssl workers) (fst started) ->
  (forwarding = true ->
     In (logged ("Forwarding to second Action endpoint on "
                   ++ match ssl with Some _ => "https" | None => "http" end
                   ++ "://" ++ ip ++ ":" ++ decimal fport))
        (fst started)
     /\ enable_forwarding (app_settings app) = true
     /\ forward_url (app_settings app) =
          "http://" ++ ip ++ ":" ++ decimal fport ++ "/webhook")
  /\ (forwarding = false ->
      enable_forwarding (app_settings app) = false
      /\ forall message,
           In (logged message) (fst started) ->
           message = "Starting action endpoint server..."
           \/ message = "Starting plugins..."
           \/ message = "Action endpoint is up and running on "
                          ++ match ssl with Some _ => "https" | None => "http" end
                          ++ "://" ++ host ++ ":" ++ decimal port).
Proof.
  startup_paths; intros I;
    repeat (destruct I as [I | I]; [discriminate | ]); try destruct I.
  unfold create_app in CA.
  destruct (register_package package); inversion CA; subst; clear CA.
  apply in_app_or in I. destruct I as [I | [I | []]].
  - destruct forwarding; [destruct I as [I | []] | destruct I]; discriminate.
  - inversion I; subst. simpl. split; intros F; subst.
    + split; [ | split; reflexivity].
      do 4 right. left. reflexivity.
    + split; [reflexivity | ].
      intros message J. simpl in J.
      repeat match goal with
             | J : _ \/ _ |- _ => destruct J as [J | J]
             | J : False |- _ => destruct J
             | J : logged _ = logged _ |- _ => inversion J; subst; clear J
             end; try discriminate; auto.
Qed.

End Serving.

(** ** More of the sample deployment at work *)

(** The greeting is found, runs and is answered with what it produced. *)
Lemma returned_result_witness :
  In (executor_run_call (Scenario.versioned_call "action_greet" "3.1.0"), None)
     (trace (Scenario.post Scenario.default_app (Scenario.plain Scenario.greet_text)))
  /\ exists result,
       fst (Executor.run (Scenario.versioned_call "action_greet" "3.1.0")
                         Scenario.executor) = Returned result
       /\ outcome (Scenario.post Scenario.default_app
                                 (Scenario.plain Scenario.greet_text)) =
            Returned (response_json result 200).
Proof.
  assert (In (executor_run_call (Scenario.versioned_call "action_greet" "3.1.0"), None)
             (trace (Scenario.post Scenario.default_app
                                   (Scenario.plain Scenario.greet_text)))) as I
      by found.
  split; [exact I | ].
  destruct (@returned_result_is_the_response
              _ registry_executor Scenario.libraries (gate_utils Scenario.sdk_version)
              Scenario.default_app (Scenario.plain Scenario.greet_text)
              Scenario.executor _ I) as (result & R & Q & _).
  exists result. split; [exact R | exact Q].
Defined.

(** A request without a body leaves the executor alone; the greeting leaves
    it as [run] left it. *)
Lemma executor_frame_witness :
  executor_after (Scenario.post Scenario.default_app (Scenario.plain [])) =
    Scenario.executor
  /\ executor_after (Scenario.post Scenario.default_app
                                   (Scenario.plain Scenario.greet_text)) =
       snd (Executor.run (Scenario.versioned_call "action_greet" "3.1.0")
                         Scenario.executor).
Proof.
  split.
  - refine (proj1 (@executor_changes_only_by_reload_and_run
                     _ registry_executor Scenario.libraries
                     (gate_utils Scenario.sdk_version)
                     Scenario.default_app (Scenario.plain []) Scenario.executor) _).
    intros entry I. vm_compute in I. destruct I as [I | []]. subst. reflexivity.
  - refine (proj2 (@executor_changes_only_by_reload_and_run
                     _ registry_executor Scenario.libraries
                     (gate_utils Scenario.sdk_version)
                     Scenario.default_app (Scenario.plain Scenario.greet_text)
                     Scenario.executor)
                  (Scenario.versioned_call "action_greet" "3.1.0") None _).
    found.
Defined.

(** The action package has become unloadable and auto-reload is on. *)
Lemma failed_reload_witness :
  In (executor_reload_call, Some (OtherException "SyntaxError" "invalid syntax"))
     (trace (Samples.post Scenario.reloading_app (Scenario.plain Scenario.greet_text)
                          Samples.broken_executor))
  /\ outcome (Samples.post Scenario.reloading_app (Scenario.plain Scenario.greet_text)
                           Samples.broken_executor) =
       Raised (OtherException "SyntaxError" "invalid syntax").
Proof.
  assert (In (executor_reload_call,
              Some (OtherException "SyntaxError" "invalid syntax"))
             (trace (Samples.post Scenario.reloading_app
                                  (Scenario.plain Scenario.greet_text)
                                  Samples.broken_executor))) as I by found.
  split; [exact I | ].
  exact (proj1 (@failed_reload_stops_the_request
                  _ registry_executor Samples.libraries
                  (gate_utils Scenario.sdk_version)
                  Scenario.reloading_app (Scenario.plain Scenario.greet_text)
                  Samples.broken_executor _ I)).
Defined.

(** The body is a JSON list. *)
Lemma list_body_witness :
  outcome (@decode Executor.State Samples.libraries
             (Scenario.plain Samples.list_text) Scenario.executor) =
    Returned (JArray [JNumber 1])
  /\ exists description,
       outcome (Samples.post Scenario.default_app (Scenario.plain Samples.list_text)
                             Scenario.executor) =
         Raised (OtherException "AttributeError" description)
       /\ executor_after (Samples.post Scenario.default_app
                                       (Scenario.plain Samples.list_text)
                                       Scenario.executor) = Scenario.executor.
Proof.
  split; [reflexivity | ].
  destruct (@body_without_get_is_an_attribute_error
              _ registry_executor Samples.libraries (gate_utils Scenario.sdk_version)
              Scenario.default_app (Scenario.plain Samples.list_text)
              Scenario.executor (JArray [JNumber 1]) eq_refl)
    as (description & W).
  - discriminate.
  - intros fields. discriminate.
  - exists description. unfold Samples.post. rewrite W. split; reflexivity.
Defined.

(** The post to the second server, traced back to the missing action. *)
Lemma relay_origin_witness :
  In (requests_post_call "http://10.0.0.2:5056/webhook"
                         (Scenario.call_of "action_missing"), None)
     (trace (Scenario.post (Scenario.forwarding_app "10.0.0.2")
                           (Scenario.plain Scenario.missing_text)))
  /\ enable_forwarding (Scenario.forwarding_app "10.0.0.2") = true.
Proof.
  assert (In (requests_post_call "http://10.0.0.2:5056/webhook"
                                 (Scenario.call_of "action_missing"), None)
             (trace (Scenario.post (Scenario.forwarding_app "10.0.0.2")
                                   (Scenario.plain Scenario.missing_text)))) as I
      by found.
  split; [exact I | ].
  exact (proj1 (@relay_only_after_not_found
                  _ registry_executor Scenario.libraries
                  (gate_utils Scenario.sdk_version)
                  (Scenario.forwarding_app "10.0.0.2")
                  (Scenario.plain Scenario.missing_text)
                  Scenario.executor _ I eq_refl)).
Defined.

(** The second server answers 204 without a JSON body. *)
Lemma empty_reply_witness :
  In (reply_json_call, Some (RequestException "JSONDecodeError"))
     (trace (Samples.post (Scenario.forwarding_app "10.0.0.5")
                          (Scenario.plain Scenario.missing_text) Scenario.executor))
  /\ outcome (Samples.post (Scenario.forwarding_app "10.0.0.5")
                           (Scenario.plain Scenario.missing_text) Scenario.executor) =
       Returned (response_json
                   (JObject [("error", JString "Forwarding request failed");
                             ("action_name", JString "action_missing")]) 504).
Proof.
  assert (In (reply_json_call, Some (RequestException "JSONDecodeError"))
             (trace (Samples.post (Scenario.forwarding_app "10.0.0.5")
                                  (Scenario.plain Scenario.missing_text)
                                  Scenario.executor))) as J by found.
  split; [exact J | ].
  refine (@request_exception_in_relay_is_504
            _ registry_executor Samples.libraries (gate_utils Scenario.sdk_version)
            (Scenario.forwarding_app "10.0.0.5")
            (Scenario.plain Scenario.missing_text) Scenario.executor
            (Scenario.call_of "action_missing") "action_missing"
            (Executor.not_found_message "action_missing") "JSONDecodeError"
            reply_json_call _ J eq_refl).
  found.
Defined.

(** The greeting is handled in the same way with and without forwarding. *)
Lemma same_without_forwarding_witness :
  Scenario.post (Scenario.forwarding_app "10.0.0.2") (Scenario.plain Scenario.greet_text) =
    Scenario.post Scenario.default_app (Scenario.plain Scenario.greet_text).
Proof.
  refine (@forwarding_settings_matter_only_for_not_found
            _ registry_executor Scenario.libraries (gate_utils Scenario.sdk_version)
            Scenario.default_app (Scenario.plain Scenario.greet_text)
            Scenario.executor (Scenario.forwarding_app "10.0.0.2") eq_refl _).
  intros c n m I. vm_compute in I.
  repeat (destruct I as [I | I]; [discriminate | ]). exact I.
Defined.

(** The status of the answer for the missing action. *)
Lemma status_codes_witness :
  outcome (Scenario.post Scenario.default_app (Scenario.plain Scenario.missing_text)) =
    Returned (response_json
                (error_body (Executor.not_found_message "action_missing")
                            "action_missing") 404)
  /\ enable_forwarding Scenario.default_app = false.
Proof.
  split; [reflexivity | ].
  refine (proj1 (proj2 (@webhook_status_codes
            _ registry_executor Scenario.libraries (gate_utils Scenario.sdk_version)
            Scenario.default_app (Scenario.plain Scenario.missing_text)
            Scenario.executor _ eq_refl)) eq_refl).
Defined.

(** Listing the actions while the package is unloadable and auto-reload is
    on. *)
Lemma actions_witness :
  (auto_reload Scenario.reloading_app = true
   /\ fst (Executor.reload Samples.broken_executor) =
        Raised (OtherException "SyntaxError" "invalid syntax"))
  /\ outcome (@actions _ registry_executor Scenario.reloading_app
                       (Scenario.plain []) Samples.broken_executor) =
       Raised (OtherException "SyntaxError" "invalid syntax").
Proof.
  assert (auto_reload Scenario.reloading_app = true
          /\ fst (Executor.reload Samples.broken_executor) =
               Raised (OtherException "SyntaxError" "invalid syntax")) as A
      by (split; reflexivity).
  split; [exact A | ].
  exact (proj2 (proj1 (proj2 (@actions_lists_names_or_fails_with_reload
                                _ registry_executor Scenario.reloading_app
                                (Scenario.plain []) Samples.broken_executor)) _) A).
Defined.

(** The failure of [action_buggy] behind a deflated body. *)
Lemma masked_failure_witness :
  outcome (Scenario.post Scenario.default_app (Scenario.deflate Scenario.buggy_deflated)) =
    Raised (OtherException "ZeroDivisionError" "division by zero")
  /\ @request_json Scenario.libraries (Scenario.deflate Scenario.buggy_deflated) =
       Raised (OtherException "BadRequest" "Failed when parsing body as json")
  /\ outcome (Scenario.served Scenario.default_app
                              (Scenario.deflate Scenario.buggy_deflated)) =
       Raised (OtherException "BadRequest" "Failed when parsing body as json").
Proof.
  split; [reflexivity | split; [reflexivity | ]].
  exact (proj1 (@handler_failure_masks_the_error
                  _ Scenario.libraries (Scenario.deflate Scenario.buggy_deflated)
                  Scenario.executor
                  (@webhook _ registry_executor Scenario.libraries
                            (gate_utils Scenario.sdk_version) Scenario.default_app)
                  (OtherException "ZeroDivisionError" "division by zero")
                  (OtherException "BadRequest" "Failed when parsing body as json")
                  eq_refl eq_refl)).
Defined.

(** A body that is a lone opening brace. *)
Lemma unparseable_body_witness :
  content_encoding_is_deflate (Scenario.plain Scenario.malformed_text) = false
  /\ Scenario.served Scenario.default_app (Scenario.plain Scenario.malformed_text) =
       MkRun (Raised (OtherException "BadRequest" "Failed when parsing body as json"))
             Scenario.executor
             [(request_json_call,
               Some (OtherException "BadRequest" "Failed when parsing body as json"));
              (request_json_call,
               Some (OtherException "BadRequest" "Failed when parsing body as json"))].
Proof.
  split; [reflexivity | ].
  exact (@unparseable_plain_body_is_not_answered
           _ registry_executor Scenario.libraries (gate_utils Scenario.sdk_version)
           Scenario.default_app (Scenario.plain Scenario.malformed_text)
           Scenario.executor _ eq_refl eq_refl).
Defined.

(** A certificate that loads, and none. *)
Lemma ssl_context_witness :
  @create_ssl_context Samples.ssl (Some "server.pem") (Some "server.key") None =
    Returned (Some (MkSSLContext "server.pem" (Some "server.key") None))
  /\ @load_cert_chain Samples.ssl "server.pem" (Some "server.key") None = Returned tt
  /\ @create_ssl_context Samples.ssl (Some "") (Some "server.key") None = Returned None.
Proof.
  split; [reflexivity | split].
  - exact (proj2 (proj2 (proj1 (proj2 (@ssl_context_only_with_certificate
             Samples.ssl (Some "server.pem") (Some "server.key") None))
             (MkSSLContext "server.pem" (Some "server.key") None) eq_refl))).
  - exact (proj2 (proj1 (@ssl_context_only_with_certificate
             Samples.ssl (Some "") (Some "server.key") None))
             (or_intror eq_refl)).
Defined.

(** A start with a certificate and forwarding, on the default host. *)
Lemma start_witness :
  In (serving (MkSanic (MkApp false true "10.0.0.2" 5056)
                       (configure_cors (origin_text "*")) Scenario.executor)
              "0.0.0.0" 5055 (Some (MkSSLContext "server.pem" None None)) 1)
     (fst (@Server.run _ Samples.startup Samples.ssl "actions" 5055 (origin_text "*")
             (Some "server.pem") None None false true "10.0.0.2" 5056))
  /\ @create_ssl_context Samples.ssl (Some "server.pem") None None =
       Returned (Some (MkSSLContext "server.pem" None None)).
Proof.
  assert (In (serving (MkSanic (MkApp false true "10.0.0.2" 5056)
                               (configure_cors (origin_text "*")) Scenario.executor)
                      "0.0.0.0" 5055 (Some (MkSSLContext "server.pem" None None)) 1)
             (fst (@Server.run _ Samples.startup Samples.ssl "actions" 5055
                     (origin_text "*") (Some "server.pem") None None false true
                     "10.0.0.2" 5056))) as I by found.
  split; [exact I | ].
  exact (proj1 (proj2 (proj2 (proj2 (proj2 (proj2
           (@server_starts_unless_startup_fails
              _ Samples.startup Samples.ssl "actions" 5055 (origin_text "*")
              (Some "server.pem") None None false true "10.0.0.2" 5056)))
           _ _ _ _ _ I)))).
Defined.

(** The same start announces itself with https. *)
Lemma scheme_witness :
  In (serving (MkSanic (MkApp false true "10.0.0.2" 5056)
                       (configure_cors (origin_text "*")) Scenario.executor)
              "0.0.0.0" 5055 (Some (MkSSLContext "server.pem" None None)) 1)
     (fst (@Server.run _ Samples.startup Samples.ssl "actions" 5055 (origin_text "*")
             (Some "server.pem") None None false true "10.0.0.2" 5056))
  /\ In (logged "Action endpoint is up and running on https://0.0.0.0:5055")
        (fst (@Server.run _ Samples.startup Samples.ssl "actions" 5055 (origin_text "*")
                (Some "server.pem") None None false true "10.0.0.2" 5056)).
Proof.
  assert (In (serving (MkSanic (MkApp false true "10.0.0.2" 5056)
                               (configure_cors (origin_text "*")) Scenario.executor)
                      "0.0.0.0" 5055 (Some (MkSSLContext "server.pem" None None)) 1)
             (fst (@Server.run _ Samples.startup Samples.ssl "actions" 5055
                     (origin_text "*") (Some "server.pem") None None false true
                     "10.0.0.2" 5056))) as I by found.
  split; [exact I | ].
  exact (proj2 (@announced_scheme_follows_the_certificate
           _ Samples.startup Samples.ssl "actions" 5055 (origin_text "*")
           (Some "server.pem") None None false true "10.0.0.2" 5056
           _ _ _ _ _ I)).
Defined.

(** The same start announces the second server with https and relays to it
    with http. *)
Lemma forwarding_announcement_witness :
  In (serving (MkSanic (MkApp false true "10.0.0.2" 5056)
                       (configure_cors (origin_text "*")) Scenario.executor)
              "0.0.0.0" 5055 (Some (MkSSLContext "server.pem" None None)) 1)
     (fst (@Server.run _ Samples.startup Samples.ssl "actions" 5055 (origin_text "*")
             (Some "server.pem") None None false true "10.0.0.2" 5056))
  /\ In (logged "Forwarding to second Action endpoint on https://10.0.0.2:5056")
        (fst (@Server.run _ Samples.startup Samples.ssl "actions" 5055 (origin_text "*")
                (Some "server.pem") None None false true "10.0.0.2" 5056))
  /\ forward_url (MkApp false true "10.0.0.2" 5056) = "http://10.0.0.2:5056/webhook".
Proof.
  assert (In (serving (MkSanic (MkApp false true "10.0.0.2" 5056)
                               (configure_cors (origin_text "*")) Scenario.executor)
                      "0.0.0.0" 5055 (Some (MkSSLContext "server.pem" None None)) 1)
             (fst (@Server.run _ Samples.startup Samples.ssl "actions" 5055
                     (origin_text "*") (Some "server.pem") None None false true
                     "10.0.0.2" 5056))) as I by found.
  split; [exact I | ].
  destruct (proj1 (@forwarding_is_announced_with_the_servers_scheme
                     _ Samples.startup Samples.ssl "actions" 5055 (origin_text "*")
                     (Some "server.pem") None None false true "10.0.0.2" 5056
                     _ _ _ _ _ I) eq_refl) as (L & _ & U).
  split; [exact L | exact U].
Defined.

(** ** The corrections at work *)


(** C10 as stated fails: the second server answers the relayed call with
    204, a success status, and no JSON body; reading the reply fails and the
    webhook answers 504 instead of relaying a body with status 200. *)
Lemma success_reply_without_json_is_not_relayed :
  In (executor_run_call (Scenario.call_of "action_missing"),
      Some (ActionNotFoundException
              "action_missing" (Executor.not_found_message "action_missing")))
     (trace (Samples.post (Scenario.forwarding_app "10.0.0.5")
                          (Scenario.plain Scenario.missing_text) Scenario.executor))
  /\ enable_forwarding (Scenario.forwarding_app "10.0.0.5") = true
  /\ @requests_post Samples.libraries
       (forward_url (Scenario.forwarding_app "10.0.0.5"))
       (Scenario.call_of "action_missing") =
       Returned (MkReply 204 (Raised (RequestException "JSONDecodeError")))
  /\ 200 <= 204 < 300
  /\ outcome (Samples.post (Scenario.forwarding_app "10.0.0.5")
                           (Scenario.plain Scenario.missing_text) Scenario.executor) =
       Returned (response_json
                   (JObject [("error", JString "Forwarding request failed");
                             ("action_name", JString "action_missing")]) 504)
  /\ forall body,
       outcome (Samples.post (Scenario.forwarding_app "10.0.0.5")
                             (Scenario.plain Scenario.missing_text)
                             Scenario.executor) <>
         Returned (response_json body 200).
Proof.
  split; [found | split; [reflexivity | split; [reflexivity | split; [lia | ]]]].
  split; [reflexivity | ].
  intros body Q. vm_compute in Q. discriminate.
Qed.

(** Two origins are configured as they are. *)
Lemma cors_witness :
  configure_cors (origin_list ["https://a.example"; "https://b.example"]) =
    MkCors [("/*", [("origins",
                     origin_list ["https://a.example"; "https://b.example"])])]
           true.
Proof.
  destruct (cors_origins_are_never_none
              (origin_list ["https://a.example"; "https://b.example"]))
    as (origins & C & _ & _ & _ & U & _).
  rewrite C, U; [reflexivity | discriminate | discriminate | discriminate].
Defined.
